(** * CarDashX: the serial decoder, the telemetry registers and the RPM bar

    A shallow embedding of [CarDashX.ino] (version 1.4) for the ATmega328
    boards the sketch is drawn for (Uno R3, Nano V3).  On that target
    [int] and [unsigned int] are 16 bits wide ("0-65535 size" in the
    source), [long] is 32 bits, [byte] is 8 bits and [double] is the
    32-bit float.

    Globals of the sketch become the fields of one record, [machine];
    every function of the sketch that writes a global becomes a function
    on [machine].  Calls on the TM1638 module are recorded, in order, in
    the field [module1]. *)

From Stdlib Require Import ZArith List Bool Ascii String Lia.
Import ListNotations.
Local Open Scope Z_scope.

(** ** Machine integers *)

Module Avr.

(** [unsigned int], [word], [size_t]: 16 bits, wrap-around. *)
Definition uint (x : Z) : Z := x mod 65536.

(** [int]: 16 bits, two's complement.  Overflow of a signed operation
    is taken as the wrap-around the AVR instructions perform. *)
Definition sint (x : Z) : Z := (x + 32768) mod 65536 - 32768.

(** [long]: 32 bits, two's complement. *)
Definition slong (x : Z) : Z := (x + 2147483648) mod 4294967296 - 2147483648.

(** [a << n] on [int].  C defines the shift for counts below 16 only;
    the AVR code shifts one position per count, so a bit moved past
    bit 15 is lost (the bar uses the counts 8 to 17 on its way to a
    level of 10). *)
Definition shl (a n : Z) : Z := sint (Z.shiftl a n).

(** [x * 1.1], [x * 0.75] and [x * 3.6] for a 16-bit [x], converted
    back to an integer (the conversion truncates).  The products are
    taken in 32-bit floats by the sketch; for every [x] in 0..65535
    the truncated float product is the integer quotient below. *)
Definition times_1_1 (x : Z) : Z := (x * 11) / 10.
Definition times_0_75 (x : Z) : Z := (x * 3) / 4.
Definition times_3_6 (x : Z) : Z := (x * 18) / 5.

End Avr.

(** ** Outcomes

    Two places of the sketch may fail to hand back a value: the division
    inside [map] when the input range is empty, and the LED loop whose
    16-bit counter can never reach a bound above 65535. *)

Inductive fault : Type :=
| DivisionByZero
| NoReturn.

Inductive outcome (A : Type) : Type :=
| Done (a : A)
| Fault (f : fault).

Arguments Done {A} a.
Arguments Fault {A} f.

Definition bind {A B : Type} (o : outcome A) (k : A -> outcome B) : outcome B :=
  match o with
  | Done a => k a
  | Fault f => Fault f
  end.

Definition omap {A B : Type} (g : A -> B) (o : outcome A) : outcome B :=
  match o with
  | Done a => Done (g a)
  | Fault f => Fault f
  end.

Notation "x <- o ;; k" := (bind o (fun x => k))
  (at level 61, o at next level, right associativity).

(** ** Functions of the Arduino core used by the sketch *)

Module Arduino.

Definition code (c : ascii) : Z := Z.of_N (N_of_ascii c).

(** [isdigit(c)] *)
Definition isdigit (c : ascii) : bool := (48 <=? code c) && (code c <=? 57).

(** [long map(long x, long in_min, long in_max, long out_min, long out_max)
      { return (x - in_min) * (out_max - out_min) / (in_max - in_min) + out_min; }]
    (WMath.cpp of the AVR core).  C division truncates toward zero. *)
Definition map (x in_min in_max out_min out_max : Z) : outcome Z :=
  let num := Avr.slong (Avr.slong (x - in_min) * Avr.slong (out_max - out_min)) in
  let den := Avr.slong (in_max - in_min) in
  if den =? 0 then Fault DivisionByZero
  else Done (Avr.slong (Avr.slong (Z.quot num den) + out_min)).

(** [String(value)] for an unsigned value: its decimal digits. *)
Fixpoint utoa (fuel : nat) (v : Z) (acc : string) : string :=
  match fuel with
  | O => acc
  | S f =>
      let acc' := String (ascii_of_N (Z.to_N (48 + v mod 10))) acc in
      if v / 10 =? 0 then acc' else utoa f (v / 10) acc'
  end.

Definition String_of (v : Z) : string := utoa 5 v EmptyString.

Definition length (s : string) : Z := Z.of_nat (String.length s).

End Arduino.

(** ** Globals *)

Definition LEFT : Z := 1.
Definition RIGHT : Z := 2.

Definition btn1 : Z := 1.
Definition btn2 : Z := 2.
Definition btn3 : Z := 4.
Definition btn4 : Z := 8.
Definition btn5 : Z := 16.
Definition btn6 : Z := 32.
Definition btn7 : Z := 64.
Definition btn8 : Z := 128.

(** [const byte indicator[] = { 'S','G','R','O','W','F','L' }] *)
Definition indicator : list ascii :=
  ["S"; "G"; "R"; "O"; "W"; "F"; "L"]%char.

(** [sizeof(indicator)] *)
Definition sizeof_indicator : Z := Z.of_nat (List.length indicator).

(** [indicator[i]]; an index outside the table has no entry. *)
Definition indicator_at (i : Z) : option ascii :=
  if i <? 0 then None else nth_error indicator (Z.to_nat i).

(** [indicator[i] == ch] *)
Definition indicator_is (i : Z) (ch : ascii) : bool :=
  match indicator_at i with
  | Some b => Ascii.eqb b ch
  | None => false
  end.

Inductive states : Type :=
| NONE | GOT_R | GOT_S | GOT_G | GOT_O | GOT_W | GOT_F | GOT_L | GOT_P
| GOT_STOP | GOT_START | GOT_MAXRPM.

(** Calls on [module1], the TM1638 display and keypad module. *)
Inductive tm1638_call : Type :=
| clearDisplay
| setLEDs (leds : Z)
| setupDisplay (active : bool) (intensity : Z)
| setDisplayToString (text : string) (dots : Z) (pos : Z).

Record machine : Type := Machine {
  carspeed : Z;          (* unsigned int *)
  cargear : Z;           (* unsigned int *)
  carrpm : Z;            (* unsigned int *)
  caroil : Z;            (* unsigned int *)
  carwater : Z;          (* unsigned int *)
  carfuel : Z;           (* unsigned int *)
  carlap : Z;            (* unsigned int *)
  carpos : Z;            (* unsigned int *)
  rpmleds : Z;           (* long *)
  rpmmax : Z;            (* unsigned int *)
  speedmultiplier : bool;
  leftindicator : Z;     (* byte *)
  rightindicator : Z;    (* byte *)
  rpmstyle : Z;          (* byte *)
  redleds : Z;           (* byte *)
  reverse : bool;
  state : states;
  currentValue : Z;      (* signed int *)
  module1 : list tm1638_call
}.

(** The globals as declared; those without an initialiser start at zero.
    [setup] then loads the five configuration bytes from the EEPROM. *)
Definition startup : machine := {|
  carspeed := 0; cargear := 0; carrpm := 0; caroil := 0; carwater := 0;
  carfuel := 0; carlap := 0; carpos := 0;
  rpmleds := 0; rpmmax := 1000; speedmultiplier := false;
  leftindicator := 0; rightindicator := 1; rpmstyle := 1; redleds := 3;
  reverse := false; state := NONE; currentValue := 0; module1 := []
|}.

(** Assignments to one global. *)
Definition set_carspeed (v : Z) (m : machine) : machine :=
  Machine v (cargear m) (carrpm m) (caroil m) (carwater m) (carfuel m) (carlap m)
    (carpos m) (rpmleds m) (rpmmax m) (speedmultiplier m) (leftindicator m)
    (rightindicator m) (rpmstyle m) (redleds m) (reverse m) (state m)
    (currentValue m) (module1 m).
Definition set_cargear (v : Z) (m : machine) : machine :=
  Machine (carspeed m) v (carrpm m) (caroil m) (carwater m) (carfuel m) (carlap m)
    (carpos m) (rpmleds m) (rpmmax m) (speedmultiplier m) (leftindicator m)
    (rightindicator m) (rpmstyle m) (redleds m) (reverse m) (state m)
    (currentValue m) (module1 m).
Definition set_carrpm (v : Z) (m : machine) : machine :=
  Machine (carspeed m) (cargear m) v (caroil m) (carwater m) (carfuel m) (carlap m)
    (carpos m) (rpmleds m) (rpmmax m) (speedmultiplier m) (leftindicator m)
    (rightindicator m) (rpmstyle m) (redleds m) (reverse m) (state m)
    (currentValue m) (module1 m).
Definition set_caroil (v : Z) (m : machine) : machine :=
  Machine (carspeed m) (cargear m) (carrpm m) v (carwater m) (carfuel m) (carlap m)
    (carpos m) (rpmleds m) (rpmmax m) (speedmultiplier m) (leftindicator m)
    (rightindicator m) (rpmstyle m) (redleds m) (reverse m) (state m)
    (currentValue m) (module1 m).
Definition set_carwater (v : Z) (m : machine) : machine :=
  Machine (carspeed m) (cargear m) (carrpm m) (caroil m) v (carfuel m) (carlap m)
    (carpos m) (rpmleds m) (rpmmax m) (speedmultiplier m) (leftindicator m)
    (rightindicator m) (rpmstyle m) (redleds m) (reverse m) (state m)
    (currentValue m) (module1 m).
Definition set_carfuel (v : Z) (m : machine) : machine :=
  Machine (carspeed m) (cargear m) (carrpm m) (caroil m) (carwater m) v (carlap m)
    (carpos m) (rpmleds m) (rpmmax m) (speedmultiplier m) (leftindicator m)
    (rightindicator m) (rpmstyle m) (redleds m) (reverse m) (state m)
    (currentValue m) (module1 m).
Definition set_carlap (v : Z) (m : machine) : machine :=
  Machine (carspeed m) (cargear m) (carrpm m) (caroil m) (carwater m) (carfuel m) v
    (carpos m) (rpmleds m) (rpmmax m) (speedmultiplier m) (leftindicator m)
    (rightindicator m) (rpmstyle m) (redleds m) (reverse m) (state m)
    (currentValue m) (module1 m).
Definition set_carpos (v : Z) (m : machine) : machine :=
  Machine (carspeed m) (cargear m) (carrpm m) (caroil m) (carwater m) (carfuel m)
    (carlap m) v (rpmleds m) (rpmmax m) (speedmultiplier m) (leftindicator m)
    (rightindicator m) (rpmstyle m) (redleds m) (reverse m) (state m)
    (currentValue m) (module1 m).
Definition set_rpmleds (v : Z) (m : machine) : machine :=
  Machine (carspeed m) (cargear m) (carrpm m) (caroil m) (carwater m) (carfuel m)
    (carlap m) (carpos m) v (rpmmax m) (speedmultiplier m) (leftindicator m)
    (rightindicator m) (rpmstyle m) (redleds m) (reverse m) (state m)
    (currentValue m) (module1 m).
Definition set_rpmmax (v : Z) (m : machine) : machine :=
  Machine (carspeed m) (cargear m) (carrpm m) (caroil m) (carwater m) (carfuel m)
    (carlap m) (carpos m) (rpmleds m) v (speedmultiplier m) (leftindicator m)
    (rightindicator m) (rpmstyle m) (redleds m) (reverse m) (state m)
    (currentValue m) (module1 m).
Definition set_speedmultiplier (v : bool) (m : machine) : machine :=
  Machine (carspeed m) (cargear m) (carrpm m) (caroil m) (carwater m) (carfuel m)
    (carlap m) (carpos m) (rpmleds m) (rpmmax m) v (leftindicator m)
    (rightindicator m) (rpmstyle m) (redleds m) (reverse m) (state m)
    (currentValue m) (module1 m).
Definition set_leftindicator (v : Z) (m : machine) : machine :=
  Machine (carspeed m) (cargear m) (carrpm m) (caroil m) (carwater m) (carfuel m)
    (carlap m) (carpos m) (rpmleds m) (rpmmax m) (speedmultiplier m) v
    (rightindicator m) (rpmstyle m) (redleds m) (reverse m) (state m)
    (currentValue m) (module1 m).
Definition set_rightindicator (v : Z) (m : machine) : machine :=
  Machine (carspeed m) (cargear m) (carrpm m) (caroil m) (carwater m) (carfuel m)
    (carlap m) (carpos m) (rpmleds m) (rpmmax m) (speedmultiplier m) (leftindicator m)
    v (rpmstyle m) (redleds m) (reverse m) (state m)
    (currentValue m) (module1 m).
Definition set_rpmstyle (v : Z) (m : machine) : machine :=
  Machine (carspeed m) (cargear m) (carrpm m) (caroil m) (carwater m) (carfuel m)
    (carlap m) (carpos m) (rpmleds m) (rpmmax m) (speedmultiplier m) (leftindicator m)
    (rightindicator m) v (redleds m) (reverse m) (state m)
    (currentValue m) (module1 m).
Definition set_redleds (v : Z) (m : machine) : machine :=
  Machine (carspeed m) (cargear m) (carrpm m) (caroil m) (carwater m) (carfuel m)
    (carlap m) (carpos m) (rpmleds m) (rpmmax m) (speedmultiplier m) (leftindicator m)
    (rightindicator m) (rpmstyle m) v (reverse m) (state m)
    (currentValue m) (module1 m).
Definition set_reverse (v : bool) (m : machine) : machine :=
  Machine (carspeed m) (cargear m) (carrpm m) (caroil m) (carwater m) (carfuel m)
    (carlap m) (carpos m) (rpmleds m) (rpmmax m) (speedmultiplier m) (leftindicator m)
    (rightindicator m) (rpmstyle m) (redleds m) v (state m)
    (currentValue m) (module1 m).
Definition set_state (v : states) (m : machine) : machine :=
  Machine (carspeed m) (cargear m) (carrpm m) (caroil m) (carwater m) (carfuel m)
    (carlap m) (carpos m) (rpmleds m) (rpmmax m) (speedmultiplier m) (leftindicator m)
    (rightindicator m) (rpmstyle m) (redleds m) (reverse m) v
    (currentValue m) (module1 m).
Definition set_currentValue (v : Z) (m : machine) : machine :=
  Machine (carspeed m) (cargear m) (carrpm m) (caroil m) (carwater m) (carfuel m)
    (carlap m) (carpos m) (rpmleds m) (rpmmax m) (speedmultiplier m) (leftindicator m)
    (rightindicator m) (rpmstyle m) (redleds m) (reverse m) (state m)
    v (module1 m).

(** One more call on the module. *)
Definition call (c : tm1638_call) (m : machine) : machine :=
  Machine (carspeed m) (cargear m) (carrpm m) (caroil m) (carwater m) (carfuel m)
    (carlap m) (carpos m) (rpmleds m) (rpmmax m) (speedmultiplier m) (leftindicator m)
    (rightindicator m) (rpmstyle m) (redleds m) (reverse m) (state m)
    (currentValue m) (module1 m ++ [c]).

(** ** The value processors *)

Definition processMaxRPM (value : Z) (m : machine) : machine :=
  set_rpmmax value m.

Definition processRPM (value : Z) (m : machine) : machine :=
  let m := set_carrpm value m in
  if (rpmmax m <? carrpm m) && (carrpm m <? 50000)
  then set_rpmmax (carrpm m) m
  else m.

Definition processSpeed (value : Z) (m : machine) : machine :=
  if speedmultiplier m
  then set_carspeed (Avr.uint (Avr.times_3_6 value)) m
  else set_carspeed value m.

Definition processGear (value : Z) (m : machine) : machine := set_cargear value m.
Definition processOil (value : Z) (m : machine) : machine := set_caroil value m.
Definition processWater (value : Z) (m : machine) : machine := set_carwater value m.
Definition processFuel (value : Z) (m : machine) : machine := set_carfuel value m.
Definition processLap (value : Z) (m : machine) : machine := set_carlap value m.
Definition processPos (value : Z) (m : machine) : machine := set_carpos value m.

Definition processStop (value : Z) (m : machine) : machine :=
  call (setupDisplay false 7) (call (setLEDs 0) (call clearDisplay m)).

Definition processStart (value : Z) (m : machine) : machine :=
  let m := call (setupDisplay true (value mod 256)) m in
  let m := call clearDisplay m in
  let m := call (setLEDs 0) m in
  set_rpmmax 1000 m.

(** ** Text on the module *)

(** [while (text.length() < pad) text = "0" + text;] *)
Fixpoint zero_pad (fuel : nat) (pad : Z) (text : string) : string :=
  match fuel with
  | O => text
  | S f =>
      if Arduino.length text <? pad
      then zero_pad f pad (String "0" text)
      else text
  end.

Definition printModule (value pad side : Z) (m : machine) : machine :=
  let text := zero_pad (Z.to_nat pad) pad (Arduino.String_of value) in
  let offset := if side =? LEFT then 0 else 8 - Arduino.length text in
  call (setDisplayToString text 0 offset) m.

(** The pair of tests every case of [handlePreviousState] makes:
    [if (indicator[leftindicator] == ch) printModule(value, pad, LEFT);
     if (indicator[rightindicator] == ch) printModule(value, pad, RIGHT);] *)
Definition show (ch : ascii) (value pad : Z) (m : machine) : machine :=
  let m := if indicator_is (leftindicator m) ch then printModule value pad LEFT m else m in
  if indicator_is (rightindicator m) ch then printModule value pad RIGHT m else m.

(** The gear on one side: "R" in reverse, "n" in neutral, the digit
    otherwise. *)
Definition showGear (side pos : Z) (m : machine) : machine :=
  if negb (reverse m) then
    if cargear m =? 0
    then call (setDisplayToString "n" 0 pos) m
    else printModule (cargear m) 1 side m
  else call (setDisplayToString "R" 0 pos) m.

(** ** The RPM bar *)

(** The [switch (rpmstyle)]: the fill level left in [rpmleds]. *)
Definition rpm_steps (m : machine) : outcome Z :=
  if rpmstyle m =? 0 then
    Arduino.map (carrpm m) 0 (Avr.times_1_1 (rpmmax m)) 0 10
  else if rpmstyle m =? 1 then
    Arduino.map (carrpm m) (Avr.times_0_75 (rpmmax m)) (rpmmax m) 0 10
  else Done (rpmleds m).

(** [for (i = 0; i < rpmleds; i++)] with [unsigned int i], [word leds]
    and [long rpmleds]; the comparison with [8 - redleds], an [int], is
    made in [unsigned int]. *)
Fixpoint led_loop (fuel : nat) (redleds rpmleds : Z) (i leds : Z) : outcome Z :=
  match fuel with
  | O => Fault NoReturn
  | S f =>
      if i <? rpmleds then
        let leds' :=
          if (Avr.uint (8 - redleds) <=? i) || (9 <=? rpmleds)
          then Avr.uint (leds + Avr.shl 1 (Avr.uint (i + 8)))
          else Avr.uint (leds + Avr.shl 1 i) in
        led_loop f redleds rpmleds (Avr.uint (i + 1)) leds'
      else Done leds
  end.

(** The counter takes at most 65536 values before it comes back to 0, so
    a loop that has not ended after that many tests never ends. *)
Definition loop_fuel : nat := Z.to_nat 65537.

Definition led_mask (redleds rpmleds : Z) : outcome Z :=
  led_loop loop_fuel redleds rpmleds 0 0.

(** ** The state machine *)

Definition handlePreviousState (m : machine) : outcome machine :=
  let value := Avr.uint (currentValue m) in
  m' <- match state m with
        | GOT_MAXRPM => Done (processMaxRPM value m)
        | GOT_R =>
            let m := processRPM value m in
            let m := show "R" (carrpm m) 4 m in
            steps <- rpm_steps m ;;
            let m := set_rpmleds steps m in
            leds <- led_mask (redleds m) (rpmleds m) ;;
            Done (call (setLEDs leds) m)
        | GOT_W =>
            let m := processWater value m in
            Done (show "W" (carwater m) 3 m)
        | GOT_F =>
            let m := processFuel value m in
            Done (show "F" (carfuel m) 3 m)
        | GOT_O =>
            let m := processOil value m in
            Done (show "O" (caroil m) 3 m)
        | GOT_S =>
            let m := processSpeed value m in
            Done (show "S" (carspeed m) 3 m)
        | GOT_G =>
            let m := processGear value m in
            let m := if indicator_is (leftindicator m) "G" then showGear LEFT 0 m else m in
            let m := if indicator_is (rightindicator m) "G" then showGear RIGHT 7 m else m in
            Done (set_reverse false m)
        | GOT_L =>
            let m := processLap value m in
            Done (show "L" (carlap m) 2 m)
        | GOT_P =>
            let m := processPos value m in
            Done (show "P" (carpos m) 2 m)
        | GOT_START => Done (processStart value m)
        | GOT_STOP => Done (processStop value m)
        | NONE => Done m
        end ;;
  Done (set_currentValue 0 m').

(** The [switch (c)] of [processIncomingByte]: the state each byte
    sets.  The minus sets [reverse] as well, see below. *)
Definition next_state (c : ascii) : states :=
  match c with
  | "-" => GOT_G
  | "T" => GOT_MAXRPM
  | "R" => GOT_R
  | "S" => GOT_S
  | "G" => GOT_G
  | "O" => GOT_O
  | "W" => GOT_W
  | "F" => GOT_F
  | "L" => GOT_L
  | "P" => GOT_P
  | "Z" => GOT_STOP
  | "Y" => GOT_START
  | _ => NONE
  end%char.

Definition processIncomingByte (c : ascii) (m : machine) : outcome machine :=
  if Arduino.isdigit c then
    let m := set_currentValue (Avr.sint (currentValue m * 10)) m in
    Done (set_currentValue (Avr.sint (currentValue m + (Arduino.code c - 48))) m)
  else
    m <- (if negb (Ascii.eqb c "-") then handlePreviousState m else Done m) ;;
    let m := if Ascii.eqb c "-" then set_reverse true m else m in
    Done (set_state (next_state c) m).

(** [while (Serial.available()) processIncomingByte(Serial.read());] *)
Fixpoint processIncoming (cs : list ascii) (m : machine) : outcome machine :=
  match cs with
  | [] => Done m
  | c :: cs' => m' <- processIncomingByte c m ;; processIncoming cs' m'
  end.

Definition feed (s : string) (m : machine) : outcome machine :=
  processIncoming (list_ascii_of_string s) m.

(** ** The buttons

    The assignments of the [switch (buttons)] of [loop].  Every case
    also redraws the settings ([dispIndicators], [delay],
    [clearDisplay]) and [btn8] writes the five settings to the EEPROM;
    these calls assign none of the globals of [machine] (they write the
    scratch text and the module) and are modelled by [loop_buttons]. *)
Definition handleButtons (buttons : Z) (m : machine) : machine :=
  if (buttons =? 0) || (buttons =? 255) then m
  else if buttons =? btn1 then
    if leftindicator m + 1 <? sizeof_indicator
    then set_leftindicator (leftindicator m + 1) m
    else set_leftindicator 0 m
  else if buttons =? btn2 then
    if rightindicator m + 1 <? sizeof_indicator
    then set_rightindicator (rightindicator m + 1) m
    else set_rightindicator 0 m
  else if buttons =? btn3 then set_speedmultiplier (negb (speedmultiplier m)) m
  else if buttons =? btn4 then set_rpmstyle ((rpmstyle m + 1) mod 2) m
  else if buttons =? btn5 then set_redleds ((redleds m + 1) mod 9) m
  else if buttons =? btn6 then set_rpmmax 1000 m
  else m.

(** ** What is observed *)

(** The telemetry registers. *)
Definition registers (m : machine) : list Z :=
  [carspeed m; cargear m; carrpm m; caroil m; carwater m; carfuel m;
   carlap m; carpos m; rpmmax m].

(** The telemetry snapshot: the registers and the reverse latch. *)
Definition snapshot (m : machine) : list Z * bool := (registers m, reverse m).

(** A completed command: the case [handlePreviousState] takes, the
    operand it hands to the value processor and the reverse latch it
    finds. *)
Definition command : Type := states * Z * bool.

Definition pending (m : machine) : option command :=
  match state m with
  | NONE => None
  | k => Some (k, Avr.uint (currentValue m), reverse m)
  end.

(** The command byte [c] completes: none for a digit or a minus, which
    do not reach [handlePreviousState]. *)
Definition completes (c : ascii) (m : machine) : option command :=
  if Arduino.isdigit c then None
  else if Ascii.eqb c "-" then None
  else pending m.

(** The commands completed while the bytes [cs] are read, in order. *)
Fixpoint commands_of (cs : list ascii) (m : machine) : list command :=
  match cs with
  | [] => []
  | c :: cs' =>
      let here := match completes c m with Some k => [k] | None => [] end in
      match processIncomingByte c m with
      | Done m' => here ++ commands_of cs' m'
      | Fault _ => here
      end
  end.

Definition commands (s : string) (m : machine) : list command :=
  commands_of (list_ascii_of_string s) m.

(** The value processor each case of [handlePreviousState] calls. *)
Definition processor (k : states) : Z -> machine -> machine :=
  match k with
  | NONE => fun _ m => m
  | GOT_R => processRPM
  | GOT_S => processSpeed
  | GOT_G => processGear
  | GOT_O => processOil
  | GOT_W => processWater
  | GOT_F => processFuel
  | GOT_L => processLap
  | GOT_P => processPos
  | GOT_STOP => processStop
  | GOT_START => processStart
  | GOT_MAXRPM => processMaxRPM
  end.

(** Applying the command [(k, v)]: [handlePreviousState] entered with
    [state == k] and [currentValue == v]. *)
Definition apply (k : states) (v : Z) (m : machine) : outcome machine :=
  handlePreviousState (set_currentValue v (set_state k m)).

(** The integer the digits spell: the sum of [d_i * 10^(n-i)]. *)
Fixpoint spelled (ds : list ascii) : Z :=
  match ds with
  | [] => 0
  | d :: r => (Arduino.code d - 48) * 10 ^ Z.of_nat (List.length r) + spelled r
  end.

(** Values of the widths the sketch declares. *)
Definition in_uint (x : Z) : Prop := 0 <= x < 65536.
Definition in_byte (x : Z) : Prop := 0 <= x < 256.

Record typed (m : machine) : Prop := Typed {
  typed_registers : Forall in_uint (registers m);
  typed_rpmleds : -2147483648 <= rpmleds m < 2147483648;
  typed_leftindicator : in_byte (leftindicator m);
  typed_rightindicator : in_byte (rightindicator m);
  typed_rpmstyle : in_byte (rpmstyle m);
  typed_redleds : in_byte (redleds m);
  typed_currentValue : -32768 <= currentValue m < 32768
}.

(** What a step may change besides the display: everything but
    [module1]. *)
Definition same_globals (a b : machine) : Prop :=
  registers a = registers b /\ reverse a = reverse b /\ state a = state b /\
  currentValue a = currentValue b /\ rpmleds a = rpmleds b /\
  speedmultiplier a = speedmultiplier b /\ leftindicator a = leftindicator b /\
  rightindicator a = rightindicator b /\ rpmstyle a = rpmstyle b /\
  redleds a = redleds b.

(** The input range of the bar in the style chosen: from 0 to 110% of
    [rpmmax] in style 0, from 75% to 100% of [rpmmax] otherwise. *)
Definition domain_floor (m : machine) : Z :=
  if rpmstyle m =? 0 then 0 else Avr.times_0_75 (rpmmax m).

Definition domain_ceiling (m : machine) : Z :=
  if rpmstyle m =? 0 then Avr.times_1_1 (rpmmax m) else rpmmax m.

(** The two statements of the digit branch of [processIncomingByte], on
    the partial number alone. *)
Definition digit_step (value : Z) (c : ascii) : Z :=
  Avr.sint (Avr.sint (value * 10) + (Arduino.code c - 48)).

Definition all_digits (ds : list ascii) : Prop :=
  Forall (fun d => Arduino.isdigit d = true) ds.

(** A byte that reaches [handlePreviousState]. *)
Definition ends_command (c : ascii) : Prop :=
  Arduino.isdigit c = false /\ c <> "-"%char.

(** ** The decoder on its own

    The three variables the decoder reads, [state], [currentValue] and
    [reverse], are written from one another only: their course can be
    followed without the registers and the display. *)
Definition decoder : Type := states * Z * bool.

Definition view (m : machine) : decoder := (state m, currentValue m, reverse m).

Definition decode (c : ascii) (d : decoder) : decoder :=
  let '(k, value, latch) := d in
  if Arduino.isdigit c then (k, digit_step value c, latch)
  else if Ascii.eqb c "-" then (GOT_G, value, true)
  else (next_state c, 0, match k with GOT_G => false | _ => latch end).

Fixpoint decode_all (cs : list ascii) (d : decoder) : decoder :=
  match cs with
  | [] => d
  | c :: cs' => decode_all cs' (decode c d)
  end.

(** The command [c] completes, read off the decoder. *)
Definition decoded_by (c : ascii) (d : decoder) : list command :=
  let '(k, value, latch) := d in
  if Arduino.isdigit c then []
  else if Ascii.eqb c "-" then []
  else match k with
       | NONE => []
       | _ => [(k, Avr.uint value, latch)]
       end.

Fixpoint decoded (cs : list ascii) (d : decoder) : list command :=
  match cs with
  | [] => []
  | c :: cs' => decoded_by c d ++ decoded cs' (decode c d)
  end.

(** No byte of [cs] ends a pending Rpm command. *)
Fixpoint rpm_free (cs : list ascii) (d : decoder) : bool :=
  match cs with
  | [] => true
  | c :: cs' =>
      (Arduino.isdigit c || Ascii.eqb c "-" ||
       match fst (fst d) with GOT_R => false | _ => true end)
      && rpm_free cs' (decode c d)
  end.

(** ** The settings shown, the EEPROM and the byte helpers *)

(** [indicator[i]] as a character.  Inside the table it is the entry;
    past the seven entries the sketch reads whatever byte lies there
    when it is read, which the source does not fix: [beyond] stands for
    that memory at one call of [dispIndicators]. *)
Definition indicator_read (beyond : Z -> ascii) (i : Z) : ascii :=
  match indicator_at i with
  | Some ch => ch
  | None => beyond i
  end.

(** [String(char c)]: the one character, copied as a C string, so that
    a zero byte gives the empty text. *)
Definition String_of_char (c : ascii) : string :=
  if Ascii.eqb c Ascii.zero then EmptyString else String c EmptyString.

(** The text [dispIndicators] builds: [String] of the flag is 0 or 1,
    [String(byte)] the decimal digits. *)
Definition settings_text (beyond : Z -> ascii) (m : machine) : string :=
  (String_of_char (indicator_read beyond (leftindicator m))
   ++ " " ++ Arduino.String_of (if speedmultiplier m then 1 else 0)
   ++ " " ++ Arduino.String_of (rpmstyle m) ++ Arduino.String_of (redleds m)
   ++ " " ++ String_of_char (indicator_read beyond (rightindicator m)))%string.

(** The sketch with the globals [machine] leaves out and the EEPROM, a
    store of bytes by address: [text] is the global [String text],
    [buttons] the global [byte buttons]. *)
Record board : Type := Board {
  sketch : machine;
  text : string;
  buttons : Z;
  EEPROM : Z -> Z
}.

(** [dispIndicators]: the text is assigned to the global [text], the
    display is cleared and the text written from column 0.  The [delay]
    that follows passes time only. *)
Definition dispIndicators (beyond : Z -> ascii) (b : board) : board :=
  let t := settings_text beyond (sketch b) in
  Board (call (setDisplayToString t 0 0) (call clearDisplay (sketch b)))
        t (buttons b) (EEPROM b).

(** [EEPROM.updateByte(address, value)] *)
Definition updateByte (address value : Z) (e : Z -> Z) : Z -> Z :=
  fun a => if a =? address then value mod 256 else e a.

(** An assignment of a case to the globals of [machine]. *)
Definition on_sketch (f : machine -> machine) (b : board) : board :=
  Board (f (sketch b)) (text b) (buttons b) (EEPROM b).

(** [buttons = module1.getButtons();] followed by the [switch (buttons)]
    of [loop] with everything it calls: the assignment of the case,
    [dispIndicators], [clearDisplay], and for button 8 the five
    [updateByte] between the two. *)
Definition loop_buttons (beyond : Z -> ascii) (pressed : Z) (b : board) : board :=
  let b := Board (sketch b) (text b) pressed (EEPROM b) in
  let m := sketch b in
  let redraw (b : board) := on_sketch (call clearDisplay) (dispIndicators beyond b) in
  if (pressed =? 0) || (pressed =? 255) then b
  else if pressed =? btn1 then
    redraw (on_sketch (fun m =>
      if leftindicator m + 1 <? sizeof_indicator
      then set_leftindicator (leftindicator m + 1) m
      else set_leftindicator 0 m) b)
  else if pressed =? btn2 then
    redraw (on_sketch (fun m =>
      if rightindicator m + 1 <? sizeof_indicator
      then set_rightindicator (rightindicator m + 1) m
      else set_rightindicator 0 m) b)
  else if pressed =? btn3 then
    redraw (on_sketch (fun m => set_speedmultiplier (negb (speedmultiplier m)) m) b)
  else if pressed =? btn4 then
    redraw (on_sketch (fun m => set_rpmstyle ((rpmstyle m + 1) mod 2) m) b)
  else if pressed =? btn5 then
    redraw (on_sketch (fun m => set_redleds ((redleds m + 1) mod 9) m) b)
  else if pressed =? btn6 then redraw (on_sketch (set_rpmmax 1000) b)
  else if pressed =? btn8 then
    let b1 := dispIndicators beyond b in
    let e := updateByte 5 (leftindicator m) (EEPROM b1) in
    let e := updateByte 7 (rightindicator m) e in
    let e := updateByte 9 (if speedmultiplier m then 1 else 0) e in
    let e := updateByte 11 (rpmstyle m) e in
    let e := updateByte 13 (redleds m) e in
    on_sketch (call clearDisplay) (Board (sketch b1) (text b1) (buttons b1) e)
  else b.

(** [setup]: the banner, the five settings read from the EEPROM, the
    settings shown, the LEDs off, the latch down. *)
Definition setup (beyond : Z -> ascii) (b : board) : board :=
  let e := EEPROM b in
  let b := on_sketch (fun m =>
    let m := set_state NONE m in
    let m := call (setupDisplay true 7) m in
    let m := call clearDisplay m in
    let m := call (setDisplayToString "CarDashX" 0 0) m in
    let m := call (setLEDs 255) m in
    let m := set_leftindicator (e 5) m in
    let m := set_rightindicator (e 7) m in
    let m := set_speedmultiplier (negb (e 9 =? 0)) m in
    let m := set_rpmstyle (e 11) m in
    set_redleds (e 13) m) b in
  let b := dispIndicators beyond b in
  on_sketch (fun m => set_reverse false (call (setLEDs 0) m)) b.

(** The five settings the EEPROM keeps. *)
Definition settings (m : machine) : Z * Z * bool * Z * Z :=
  (leftindicator m, rightindicator m, speedmultiplier m, rpmstyle m, redleds m).

(** Settings the buttons can reach: selectors inside the table, one of
    the two styles, at most eight red LEDs. *)
Definition settings_valid (m : machine) : Prop :=
  0 <= leftindicator m < sizeof_indicator /\
  0 <= rightindicator m < sizeof_indicator /\
  0 <= rpmstyle m <= 1 /\ 0 <= redleds m <= 8.

(** [word(h, l)]: [(h << 8) | l] as an unsigned 16-bit value. *)
Definition word (h l : Z) : Z := Avr.uint (Z.lor (Avr.shl h 8) l).

(** [byte2uint]: [word(binary[1], binary[0])]. *)
Definition byte2uint (binary : list Z) : Z :=
  word (nth 1 binary 0) (nth 0 binary 0).

(** [byte2int]: [binary[1] << 8 | binary[0]] as an [int]. *)
Definition byte2int (binary : list Z) : Z :=
  Avr.sint (Z.lor (Avr.shl (nth 1 binary 0) 8) (nth 0 binary 0)).

(** The reverse latch is up only while a Gear command is pending. *)
Definition latch_guarded (m : machine) : Prop :=
  reverse m = true -> state m = GOT_G.

(** The 16-bit mask with the first [g] positions green and the positions
    from [g] up to [s] red. *)
Definition bar (g s : Z) : Z := (2 ^ g - 1) + 256 * (2 ^ s - 2 ^ g).



(** A state in which the bar can be computed: a ceiling of at least 1
    and one of the two styles. *)
Definition calm (m : machine) : Prop :=
  in_uint (rpmmax m) /\ 1 <= rpmmax m /\ (rpmstyle m = 0 \/ rpmstyle m = 1).

(** Every Rpm command the bytes complete has an operand below 50000 and
    every SetRpmCeiling command one of at least 1, read off the
    decoder. *)
Fixpoint harmless (cs : list ascii) (d : decoder) : bool :=
  match cs with
  | [] => true
  | c :: cs' =>
      (Arduino.isdigit c || Ascii.eqb c "-" ||
       match fst (fst d) with
       | GOT_R => Avr.uint (snd (fst d)) <? 50000
       | GOT_MAXRPM => 1 <=? Avr.uint (snd (fst d))
       | _ => true
       end)
      && harmless cs' (decode c d)
  end.

(** The registers after the command [(k, v)] is applied to [m], register
    by register: speed, gear, rpm, oil, water, fuel, lap, position and
    ceiling, in the order of [registers]. *)
Definition committed (k : states) (v : Z) (m : machine) : list Z :=
  match k with
  | NONE | GOT_STOP => registers m
  | GOT_S =>
      [if speedmultiplier m then Avr.uint (Avr.times_3_6 v) else v;
       cargear m; carrpm m; caroil m; carwater m; carfuel m; carlap m; carpos m; rpmmax m]
  | GOT_G =>
      [carspeed m; v; carrpm m; caroil m; carwater m; carfuel m; carlap m; carpos m;
       rpmmax m]
  | GOT_R =>
      [carspeed m; cargear m; v; caroil m; carwater m; carfuel m; carlap m; carpos m;
       if (rpmmax m <? v) && (v <? 50000) then v else rpmmax m]
  | GOT_O =>
      [carspeed m; cargear m; carrpm m; v; carwater m; carfuel m; carlap m; carpos m;
       rpmmax m]
  | GOT_W =>
      [carspeed m; cargear m; carrpm m; caroil m; v; carfuel m; carlap m; carpos m;
       rpmmax m]
  | GOT_F =>
      [carspeed m; cargear m; carrpm m; caroil m; carwater m; v; carlap m; carpos m;
       rpmmax m]
  | GOT_L =>
      [carspeed m; cargear m; carrpm m; caroil m; carwater m; carfuel m; v; carpos m;
       rpmmax m]
  | GOT_P =>
      [carspeed m; cargear m; carrpm m; caroil m; carwater m; carfuel m; carlap m; v;
       rpmmax m]
  | GOT_MAXRPM =>
      [carspeed m; cargear m; carrpm m; caroil m; carwater m; carfuel m; carlap m;
       carpos m; v]
  | GOT_START =>
      [carspeed m; cargear m; carrpm m; caroil m; carwater m; carfuel m; carlap m;
       carpos m; 1000]
  end.
(** * Properties *)

(** ** Machine integers *)

Lemma uint_range (x : Z) : in_uint (Avr.uint x).
Proof. unfold in_uint, Avr.uint. apply Z.mod_pos_bound. lia. Qed.

Lemma uint_small (x : Z) : in_uint x -> Avr.uint x = x.
Proof. unfold in_uint, Avr.uint. intros H. apply Z.mod_small. exact H. Qed.

Lemma sint_range (x : Z) : -32768 <= Avr.sint x < 32768.
Proof.
  unfold Avr.sint.
  pose proof (Z.mod_pos_bound (x + 32768) 65536 ltac:(lia)). lia.
Qed.

Lemma sint_small (x : Z) : -32768 <= x < 32768 -> Avr.sint x = x.
Proof. unfold Avr.sint. intros H. rewrite Z.mod_small; lia. Qed.

Lemma sint_wraps (x : Z) : exists k, Avr.sint x = x + k * 65536.
Proof.
  unfold Avr.sint. exists (- ((x + 32768) / 65536)).
  pose proof (Z.div_mod (x + 32768) 65536 ltac:(lia)). lia.
Qed.

Lemma uint_sint (x : Z) : Avr.uint (Avr.sint x) = Avr.uint x.
Proof.
  destruct (sint_wraps x) as [k ->]. unfold Avr.uint.
  apply Z_mod_plus_full.
Qed.

Lemma slong_range (x : Z) : -2147483648 <= Avr.slong x < 2147483648.
Proof.
  unfold Avr.slong.
  pose proof (Z.mod_pos_bound (x + 2147483648) 4294967296 ltac:(lia)). lia.
Qed.

Lemma slong_small (x : Z) : -2147483648 <= x < 2147483648 -> Avr.slong x = x.
Proof. unfold Avr.slong. intros H. rewrite Z.mod_small; lia. Qed.

(** ** The LED loop *)

Lemma led_loop_more_fuel (f : nat) :
  forall r s i l x, led_loop f r s i l = Done x ->
  forall f', (f <= f')%nat -> led_loop f' r s i l = Done x.
Proof.
  induction f as [|f IH]; intros r s i l x H f' Hf; [discriminate H|].
  destruct f' as [|f']; [lia|].
  cbn [led_loop] in *. destruct (i <? s); [|exact H].
  apply IH with (f' := f') in H; [exact H | lia].
Qed.

(** The loop ends whenever its bound fits the 16-bit counter. *)
Lemma led_loop_returns (f : nat) :
  forall r s i l, 0 <= i -> s <= 65535 -> (Z.to_nat (s - i) < f)%nat ->
  exists x, led_loop f r s i l = Done x.
Proof.
  induction f as [|f IH]; intros r s i l Hi Hs Hf; [lia|].
  cbn [led_loop]. destruct (Z.ltb_spec i s) as [Hlt|Hge].
  - rewrite (uint_small (i + 1)) by (unfold in_uint; lia).
    apply IH; lia.
  - eexists; reflexivity.
Qed.

(** A bound above 65535 is never reached: the counter wraps to 0. *)
Lemma led_loop_never (f : nat) :
  forall r s i l, 65535 < s -> in_uint i -> led_loop f r s i l = Fault NoReturn.
Proof.
  induction f as [|f IH]; intros r s i l Hs Hi; [reflexivity|].
  cbn [led_loop]. unfold in_uint in Hi.
  destruct (Z.ltb_spec i s) as [Hlt|Hge]; [|lia].
  apply IH; [exact Hs | apply uint_range].
Qed.

Lemma led_mask_returns (r s : Z) : s <= 65535 -> exists x, led_mask r s = Done x.
Proof.
  intros Hs. unfold led_mask, loop_fuel.
  apply led_loop_returns; lia.
Qed.

Lemma led_mask_never (r s : Z) : 65535 < s -> led_mask r s = Fault NoReturn.
Proof.
  intros Hs. apply led_loop_never; [exact Hs | unfold in_uint; lia].
Qed.

(** From nine steps on the second test of the [if] holds at every turn:
    the number of red LEDs no longer matters. *)
Lemma led_loop_shift_warning (f : nat) :
  forall r s i l, 9 <= s -> led_loop f r s i l = led_loop f 0 s i l.
Proof.
  induction f as [|f IH]; intros r s i l Hs; [reflexivity|].
  cbn [led_loop]. destruct (i <? s); [|reflexivity].
  destruct (Z.leb_spec 9 s) as [_|Hlt]; [|lia].
  rewrite !orb_true_r. apply IH. exact Hs.
Qed.

(** ** [map] *)

Lemma map_0_10 (x lo hi : Z) :
  0 <= x < 65536 -> 0 <= lo -> lo < hi -> hi < 131072 ->
  Arduino.map x lo hi 0 10 = Done (Z.quot ((x - lo) * 10) (hi - lo)).
Proof.
  intros Hx Hlo Hlt Hhi. unfold Arduino.map.
  rewrite (slong_small (x - lo)) by lia.
  rewrite (slong_small (10 - 0)) by lia.
  rewrite (slong_small (hi - lo)) by lia.
  replace (10 - 0) with 10 by lia.
  rewrite (slong_small ((x - lo) * 10)) by lia.
  destruct (Z.eqb_spec (hi - lo) 0) as [E|_]; [lia|].
  assert (Hq : Z.abs (Z.quot ((x - lo) * 10) (hi - lo)) <= Z.abs ((x - lo) * 10)).
  { rewrite <- Z.quot_abs by lia.
    apply Z.quot_le_upper_bound; [lia|].
    assert (0 <= Z.abs ((x - lo) * 10)) by lia. nia. }
  rewrite (slong_small (Z.quot _ _)) by lia.
  rewrite Z.add_0_r. rewrite slong_small by lia. reflexivity.
Qed.

Lemma quot_inside (a d : Z) : 0 < d -> 0 <= a <= d -> 0 <= Z.quot (a * 10) d <= 10.
Proof.
  intros Hd Ha. rewrite Z.quot_div_nonneg by lia. split.
  - apply Z.div_pos; lia.
  - apply Z.div_le_upper_bound; lia.
Qed.

Lemma quot_below (a d : Z) : 0 < d -> a <= 0 -> Z.quot (a * 10) d <= 0.
Proof.
  intros Hd Ha. replace (a * 10) with (- ((- a) * 10)) by lia.
  rewrite Z.quot_opp_l by lia. rewrite Z.quot_div_nonneg by lia.
  assert (0 <= (- a * 10) / d) by (apply Z.div_pos; lia). lia.
Qed.

Lemma quot_above (a d : Z) : 0 < d -> d <= a -> 10 <= Z.quot (a * 10) d.
Proof.
  intros Hd Ha. rewrite Z.quot_div_nonneg by lia.
  apply Z.div_le_lower_bound; lia.
Qed.

Lemma quot_full (d : Z) : 0 < d -> Z.quot (d * 10) d = 10.
Proof.
  intros Hd. rewrite Z.quot_div_nonneg by lia.
  rewrite Z.mul_comm. apply Z.div_mul. lia.
Qed.

(** ** Drawing leaves the registers alone *)

Lemma same_globals_refl (m : machine) : same_globals m m.
Proof. unfold same_globals; repeat split. Qed.

Lemma same_globals_trans (a b c : machine) :
  same_globals a b -> same_globals b c -> same_globals a c.
Proof.
  unfold same_globals. intros H1 H2.
  decompose [and] H1; decompose [and] H2; repeat split; congruence.
Qed.

Lemma call_same (c : tm1638_call) (m : machine) : same_globals (call c m) m.
Proof. unfold same_globals; repeat split. Qed.

Lemma printModule_same (value pad side : Z) (m : machine) :
  same_globals (printModule value pad side m) m.
Proof. unfold printModule. apply call_same. Qed.

Lemma show_same (ch : ascii) (value pad : Z) (m : machine) :
  same_globals (show ch value pad m) m.
Proof.
  unfold show.
  destruct (indicator_is (leftindicator m) ch).
  - destruct (indicator_is _ ch).
    + eapply same_globals_trans; apply printModule_same.
    + apply printModule_same.
  - destruct (indicator_is _ ch).
    + apply printModule_same.
    + apply same_globals_refl.
Qed.

Lemma showGear_same (side pos : Z) (m : machine) :
  same_globals (showGear side pos m) m.
Proof.
  unfold showGear. destruct (reverse m); cbn [negb].
  - apply call_same.
  - destruct (cargear m =? 0); [apply call_same | apply printModule_same].
Qed.


(** ** One call of [handlePreviousState] *)

(** Projections reduce through assignments one field at a time; the
    assignments themselves are never unfolded in place. *)
Ltac fields :=
  cbn [carspeed cargear carrpm caroil carwater carfuel carlap carpos rpmleds
       rpmmax speedmultiplier leftindicator rightindicator rpmstyle redleds
       reverse state currentValue module1
       set_carspeed set_cargear set_carrpm set_caroil set_carwater set_carfuel
       set_carlap set_carpos set_rpmleds set_rpmmax set_speedmultiplier
       set_leftindicator set_rightindicator set_rpmstyle set_redleds
       set_reverse set_state set_currentValue call] in *.

Ltac split_ifs :=
  repeat match goal with
         | |- context [if ?b then _ else _] => destruct b eqn:?
         end.

Ltac open_draw := unfold show, showGear, printModule in *.

Ltac open_process :=
  unfold processMaxRPM, processRPM, processSpeed, processGear, processOil,
    processWater, processFuel, processLap, processPos, processStop,
    processStart in *; cbn zeta in *.

(** The registers after the call are those the value processor of the
    pending state leaves; the latch is consumed by the gear case only;
    the partial number is cleared; the settings stay. *)
Lemma handlePreviousState_spec (m m' : machine) :
  handlePreviousState m = Done m' ->
  registers m' = registers (processor (state m) (Avr.uint (currentValue m)) m) /\
  reverse m' = match state m with GOT_G => false | _ => reverse m end /\
  state m' = state m /\ currentValue m' = 0 /\
  speedmultiplier m' = speedmultiplier m /\
  leftindicator m' = leftindicator m /\ rightindicator m' = rightindicator m /\
  rpmstyle m' = rpmstyle m /\ redleds m' = redleds m.
Proof.
  unfold handlePreviousState. destruct (state m) eqn:Hs; cbn [bind processor].
  2: { destruct (rpm_steps _) as [steps|]; cbn [bind]; [|discriminate].
       destruct (led_mask _ _) as [leds|]; cbn [bind]; [|discriminate].
       intros H; injection H as <-. rewrite <- Hs. clear Hs.
       open_draw. split_ifs; unfold registers, processRPM; cbn zeta;
         split_ifs; repeat split. }
  all: intros H; injection H as <-; rewrite <- Hs; clear Hs;
    open_draw; open_process; split_ifs; repeat split; assumption.
Qed.

(** Every case but the RPM one returns. *)
Lemma handlePreviousState_returns (m : machine) :
  state m <> GOT_R -> exists m', handlePreviousState m = Done m'.
Proof.
  intros Hs. unfold handlePreviousState.
  destruct (state m); try congruence; cbn [bind]; eexists; reflexivity.
Qed.

(** ** What [processRPM] writes *)

Lemma processRPM_fields (v : Z) (m : machine) :
  carrpm (processRPM v m) = v /\
  rpmmax (processRPM v m) = (if (rpmmax m <? v) && (v <? 50000) then v else rpmmax m) /\
  rpmstyle (processRPM v m) = rpmstyle m /\
  rpmleds (processRPM v m) = rpmleds m /\
  speedmultiplier (processRPM v m) = speedmultiplier m.
Proof.
  unfold processRPM. cbn zeta. fields.
  destruct ((rpmmax m <? v) && (v <? 50000)); repeat split.
Qed.

Lemma processRPM_registers (v : Z) (m : machine) :
  registers (processRPM v m)
  = [carspeed m; cargear m; v; caroil m; carwater m; carfuel m; carlap m; carpos m;
     if (rpmmax m <? v) && (v <? 50000) then v else rpmmax m].
Proof.
  unfold processRPM. cbn zeta. fields.
  destruct ((rpmmax m <? v) && (v <? 50000)); reflexivity.
Qed.

(** ** The fill level *)

Lemma rpm_steps_same (a b : machine) :
  same_globals a b -> rpm_steps a = rpm_steps b.
Proof.
  unfold same_globals, registers, rpm_steps. intros H.
  decompose [and] H. clear H.
  match goal with E : _ :: _ = _ :: _ |- _ => injection E as ? ? ? ? ? ? ? ? ? end.
  repeat match goal with E : _ a = _ b |- _ => rewrite E; clear E end.
  reflexivity.
Qed.

(** Inside its input range the level is the linear one and lies between
    0 and 10; outside the quotient is not cut: it is at most 0 below the
    range and at least 10 above it. *)
Lemma rpm_steps_linear (m : machine) :
  in_uint (carrpm m) -> in_uint (rpmmax m) -> 1 <= rpmmax m ->
  rpmstyle m = 0 \/ rpmstyle m = 1 ->
  rpm_steps m =
    Done (Z.quot ((carrpm m - domain_floor m) * 10) (domain_ceiling m - domain_floor m))
  /\ 0 <= domain_floor m < domain_ceiling m.
Proof.
  unfold in_uint, rpm_steps, domain_floor, domain_ceiling, Avr.times_1_1, Avr.times_0_75.
  intros Hr Hm H1 [E|E]; rewrite E; cbn [Z.eqb Pos.eqb].
  - assert (rpmmax m <= rpmmax m * 11 / 10 < 131072).
    { split; [apply Z.div_le_lower_bound; lia | apply Z.div_lt_upper_bound; lia]. }
    split; [apply map_0_10; lia | lia].
  - assert (0 <= rpmmax m * 3 / 4 < rpmmax m).
    { split; [apply Z.div_pos; lia | apply Z.div_lt_upper_bound; lia]. }
    split; [apply map_0_10; lia | lia].
Qed.

Lemma rpm_steps_at_most_10 (m : machine) :
  in_uint (carrpm m) -> in_uint (rpmmax m) -> 1 <= rpmmax m ->
  carrpm m <= rpmmax m -> rpmstyle m = 0 \/ rpmstyle m = 1 ->
  exists s, rpm_steps m = Done s /\ s <= 10.
Proof.
  intros Hr Hm H1 Hle Hst.
  destruct (rpm_steps_linear m Hr Hm H1 Hst) as [-> Hdom].
  eexists; split; [reflexivity|].
  assert (Hc : rpmmax m <= domain_ceiling m).
  { unfold domain_ceiling, Avr.times_1_1. destruct (rpmstyle m =? 0); [|lia].
    apply Z.div_le_lower_bound; lia. }
  destruct (Z.le_gt_cases (domain_floor m) (carrpm m)) as [Hin|Hout].
  - apply quot_inside; lia.
  - pose proof (quot_below (carrpm m - domain_floor m)
                  (domain_ceiling m - domain_floor m)). lia.
Qed.

(** ** The RPM case *)

Lemma handlePreviousState_rpm (m m' : machine) :
  state m = GOT_R -> handlePreviousState m = Done m' ->
  let p := processRPM (Avr.uint (currentValue m)) m in
  rpm_steps p = Done (rpmleds m') /\
  exists leds, led_mask (redleds m) (rpmleds m') = Done leds /\
    module1 m' = module1 (show "R" (carrpm p) 4 p) ++ [setLEDs leds].
Proof.
  intros Hs. unfold handlePreviousState. rewrite Hs. cbn [bind].
  set (p := processRPM _ m). cbn zeta.
  rewrite (rpm_steps_same _ _ (show_same "R" (carrpm p) 4 p)).
  destruct (rpm_steps p) as [steps|]; cbn [bind]; [|discriminate].
  assert (Hred : redleds (set_rpmleds steps (show "R" (carrpm p) 4 p)) = redleds m).
  { cbn [redleds set_rpmleds].
    destruct (show_same "R" (carrpm p) 4 p) as (_ & _ & _ & _ & _ & _ & _ & _ & _ & ->).
    subst p. unfold processRPM. cbn zeta. split_ifs; reflexivity. }
  rewrite Hred. cbn [rpmleds set_rpmleds].
  destruct (led_mask (redleds m) steps) as [leds|] eqn:Hl; cbn [bind]; [|discriminate].
  intros H; injection H as <-. split; [reflexivity|].
  exists leds. split; [exact Hl | reflexivity].
Qed.

Lemma handlePreviousState_rpm_returns (m : machine) (s : Z) :
  state m = GOT_R ->
  rpm_steps (processRPM (Avr.uint (currentValue m)) m) = Done s -> s <= 65535 ->
  exists m', handlePreviousState m = Done m'.
Proof.
  intros Hs Hsteps Hle. unfold handlePreviousState. rewrite Hs. cbn [bind].
  set (p := processRPM _ m) in *.
  rewrite (rpm_steps_same _ _ (show_same "R" (carrpm p) 4 p)), Hsteps.
  cbn [bind rpmleds set_rpmleds].
  destruct (led_mask_returns (redleds (set_rpmleds s (show "R" (carrpm p) 4 p))) s Hle)
    as [leds ->].
  cbn [bind]. eexists; reflexivity.
Qed.

(** The value processors read no variable of the decoder. *)
Lemma processor_ignores_partial_number (k : states) (u x : Z) (m : machine) :
  registers (processor k u (set_currentValue x m)) = registers (processor k u m).
Proof.
  destruct k; cbn [processor]; rewrite ?processRPM_registers; open_process;
    unfold registers; fields; split_ifs; fields; reflexivity.
Qed.

(** A level of 0 or less lights nothing. *)
Lemma led_mask_dark (r s : Z) : s <= 0 -> led_mask r s = Done 0.
Proof.
  intros Hs.
  assert (H : forall f, led_loop (S f) r s 0 0 = Done 0).
  { intros f. cbn [led_loop]. destruct (Z.ltb_spec 0 s); [lia | reflexivity]. }
  unfold led_mask, loop_fuel.
  replace (Z.to_nat 65537) with (S (Z.to_nat 65536)) by lia.
  apply H.
Qed.

(** ** The declared widths are kept *)

Lemma startup_typed : typed startup.
Proof.
  constructor; unfold in_byte, registers, startup; cbn; try lia.
  repeat (apply Forall_cons; [unfold in_uint; lia|]). apply Forall_nil.
Qed.

Lemma processor_typed (k : states) (u : Z) (m : machine) :
  in_uint u -> Forall in_uint (registers m) ->
  Forall in_uint (registers (processor k u m)).
Proof.
  intros Hu Hm. destruct k; cbn [processor];
    [ | rewrite processRPM_registers | .. ]; open_process;
    unfold registers in *; fields;
    repeat match goal with
           | H : Forall _ (_ :: _) |- _ => inversion H; clear H; subst
           end;
    split_ifs; fields;
    repeat (apply Forall_cons; [|]); try apply Forall_nil;
    try assumption; try apply uint_range; unfold in_uint in *; lia.
Qed.

Lemma handlePreviousState_rpmleds (m m' : machine) :
  handlePreviousState m = Done m' ->
  -2147483648 <= rpmleds m < 2147483648 ->
  -2147483648 <= rpmleds m' < 2147483648.
Proof.
  intros H Hl. destruct (state m) eqn:Hs.
  2: { destruct (handlePreviousState_rpm m m' Hs H) as (Hsteps & _).
       unfold rpm_steps, Arduino.map in Hsteps.
       destruct (processRPM_fields (Avr.uint (currentValue m)) m) as (_ & _ & _ & Hleds & _).
       rewrite Hleds in Hsteps.
       repeat match type of Hsteps with
              | (if ?b then _ else _) = _ => destruct b
              end;
         try discriminate; injection Hsteps as <-;
         try apply slong_range; exact Hl. }
  all: unfold handlePreviousState in H; rewrite Hs in H; cbn [bind] in H;
    injection H as <-; open_draw; open_process; split_ifs; fields; exact Hl.
Qed.

Lemma handlePreviousState_typed (m m' : machine) :
  typed m -> handlePreviousState m = Done m' -> typed m'.
Proof.
  intros [Hr Hl Hli Hri Hy Hd Hv] H.
  pose proof (handlePreviousState_rpmleds m m' H Hl) as Hl'.
  apply handlePreviousState_spec in H.
  destruct H as (Hr' & _ & _ & Hv' & _ & Hli' & Hri' & Hy' & Hd').
  constructor; try congruence.
  - rewrite Hr'. apply processor_typed; [apply uint_range | exact Hr].
  - rewrite Hv'. lia.
Qed.

(** Every byte keeps every global within the width it is declared
    with; so does every button. *)
Lemma processIncomingByte_typed (c : ascii) (m m' : machine) :
  typed m -> processIncomingByte c m = Done m' -> typed m'.
Proof.
  intros Hm. unfold processIncomingByte.
  destruct (Arduino.isdigit c).
  - intros H; injection H as <-. destruct Hm. constructor; fields; try assumption.
    apply sint_range.
  - destruct (Ascii.eqb c "-"); cbn [negb bind].
    + intros H; injection H as <-. destruct Hm. constructor; fields; assumption.
    + destruct (handlePreviousState m) as [a|] eqn:Ha; cbn [bind]; [|discriminate].
      intros H; injection H as <-.
      destruct (handlePreviousState_typed m a Hm Ha).
      constructor; fields; assumption.
Qed.

Lemma handleButtons_typed (b : Z) (m : machine) : typed m -> typed (handleButtons b m).
Proof.
  intros [Hr Hl Hli Hri Hy Hd Hv]. unfold handleButtons, in_byte in *.
  repeat match goal with
         | |- context [?x <? ?y] => destruct (Z.ltb_spec x y)
         | |- context [if ?c then _ else _] => destruct c
         end;
    constructor; unfold in_byte; fields; try assumption;
    try (unfold sizeof_indicator in *; cbn in *; lia);
    try (apply Z.mod_pos_bound; lia).
  all: unfold registers in *; fields;
    repeat match goal with
           | H : Forall _ (_ :: _) |- _ => inversion H; clear H; subst
           end;
    repeat (apply Forall_cons; [|]); try apply Forall_nil;
    try assumption; unfold in_uint in *; try lia.
  all: match goal with
       | |- 0 <= ?a mod ?n < _ => pose proof (Z.mod_pos_bound a n ltac:(lia)); lia
       end.
Qed.

(** ** The RPM register and its ceiling *)

(** C6.  Applying the Rpm command with operand [v] stores [v] in the rpm
    register whatever [v] is (50000 and above included); the ceiling
    becomes [v] exactly when [v] is above the current ceiling and below
    50000, and is left as it was in every other case. *)
Theorem C6_processRPM_stores_and_raises (v : Z) (m : machine) :
  carrpm (processRPM v m) = v /\
  (rpmmax (processRPM v m) <> rpmmax m <-> rpmmax m < v /\ v < 50000) /\
  (rpmmax m < v /\ v < 50000 -> rpmmax (processRPM v m) = v) /\
  (~ (rpmmax m < v /\ v < 50000) -> rpmmax (processRPM v m) = rpmmax m).
Proof.
  unfold processRPM. cbn [carrpm rpmmax set_carrpm].
  destruct (Z.ltb_spec (rpmmax m) v) as [H1|H1];
    destruct (Z.ltb_spec v 50000) as [H2|H2];
    cbn [andb carrpm rpmmax set_carrpm set_rpmmax];
    repeat split; intros; try lia; try tauto.
Qed.

(** Two instances from the start-up state, ceiling 1000: 4250 raises the
    ceiling, 60000 is stored and leaves it. *)
Lemma C6_processRPM_witness :
  carrpm (processRPM 4250 startup) = 4250 /\ rpmmax (processRPM 4250 startup) = 4250 /\
  carrpm (processRPM 60000 startup) = 60000 /\ rpmmax (processRPM 60000 startup) = 1000.
Proof.
  destruct (C6_processRPM_stores_and_raises 4250 startup) as (H1 & _ & H2 & _).
  destruct (C6_processRPM_stores_and_raises 60000 startup) as (H3 & _ & _ & H4).
  split; [exact H1|]. split.
  - apply H2. cbn [rpmmax startup]. lia.
  - split; [exact H3|]. apply H4. lia.
Defined.

(** The same through the state machine: a byte that ends a pending Rpm
    command leaves the registers [processRPM] computes. *)
Lemma rpm_command_registers (m m' : machine) :
  state m = GOT_R -> handlePreviousState m = Done m' ->
  carrpm m' = Avr.uint (currentValue m) /\
  rpmmax m' = rpmmax (processRPM (Avr.uint (currentValue m)) m).
Proof.
  intros Hs H. apply handlePreviousState_spec in H.
  destruct H as (Hr & _). rewrite Hs in Hr. cbn [processor] in Hr.
  unfold registers in Hr. injection Hr as _ _ Hrpm _ _ _ _ _ Hmax.
  split; [|exact Hmax].
  rewrite Hrpm. unfold processRPM. split_ifs; reflexivity.
Qed.

(** C5, as the sketch has it.  The ceiling never goes down when a
    command other than Start and SetRpmCeiling is applied, nor when a
    button other than the reset button is pressed.  Start and the reset
    button set it to 1000; SetRpmCeiling overwrites it with its operand,
    which may be lower. *)
Theorem C5_rpmmax_monotone_but_resets_and_override (m : machine) :
  (forall k v m', k <> GOT_START -> k <> GOT_MAXRPM ->
     apply k v m = Done m' -> rpmmax m <= rpmmax m') /\
  (forall c m', state m <> GOT_START -> state m <> GOT_MAXRPM ->
     processIncomingByte c m = Done m' -> rpmmax m <= rpmmax m') /\
  (forall b, b <> btn6 -> rpmmax (handleButtons b m) = rpmmax m) /\
  (forall v, exists m', apply GOT_START v m = Done m' /\ rpmmax m' = 1000) /\
  rpmmax (handleButtons btn6 m) = 1000 /\
  (forall v, exists m', apply GOT_MAXRPM v m = Done m' /\ rpmmax m' = Avr.uint v).
Proof.
  assert (Hstep : forall a a', state a <> GOT_START -> state a <> GOT_MAXRPM ->
            handlePreviousState a = Done a' -> rpmmax a <= rpmmax a').
  { intros a a' H1 H2 H. apply handlePreviousState_spec in H.
    destruct H as (Hr & _). unfold registers in Hr.
    injection Hr as _ _ _ _ _ _ _ _ ->.
    destruct (state a); try congruence; cbn [processor];
      open_process; fields; try lia.
    - destruct (Z.ltb_spec (rpmmax a) (Avr.uint (currentValue a))); cbn [andb].
      + split_ifs; fields; lia.
      + fields; lia.
    - split_ifs; fields; lia. }
  repeat split.
  - intros k v m' H1 H2 H. unfold apply in H. apply Hstep in H; assumption.
  - intros c m' H1 H2. unfold processIncomingByte.
    destruct (Arduino.isdigit c).
    + intros H; injection H as <-. cbn [rpmmax set_currentValue]. lia.
    + destruct (Ascii.eqb c "-"); cbn [negb bind].
      * intros H; injection H as <-. cbn [rpmmax set_state set_reverse]. lia.
      * destruct (handlePreviousState m) as [a|] eqn:Ha; cbn [bind]; [|discriminate].
        intros H; injection H as <-. cbn [rpmmax set_state].
        apply Hstep in Ha; assumption.
  - intros b Hb. unfold handleButtons.
    destruct (Z.eqb_spec b btn6) as [E|_]; [congruence|].
    split_ifs; reflexivity.
  - intros v. eexists; split; reflexivity.
  - intros v. eexists; split; reflexivity.
Qed.

(** C5, as the claim words it, fails: SetRpmCeiling lowers the ceiling.
    From the start-up state the bytes T500X take it from 1000 to 500. *)
Lemma C5_SetRpmCeiling_lowers :
  exists m', apply GOT_MAXRPM 500 startup = Done m' /\
             rpmmax m' = 500 /\ rpmmax m' < rpmmax startup /\
             omap rpmmax (feed "T500X" startup) = Done 500.
Proof. eexists; repeat split. Qed.

(** An instance: a pending Rpm command with operand 2000 raises the
    ceiling of the start-up state. *)
Lemma C5_rpmmax_monotone_witness :
  exists m', apply GOT_R 2000 startup = Done m' /\
             rpmmax startup <= rpmmax m' /\
             rpmmax (handleButtons btn5 startup) = rpmmax startup.
Proof.
  destruct (C5_rpmmax_monotone_but_resets_and_override startup)
    as (Hcmd & _ & Hbtn & _).
  eexists. split; [vm_compute; reflexivity|]. split.
  - apply (Hcmd GOT_R 2000); [discriminate | discriminate | vm_compute; reflexivity].
  - apply Hbtn. discriminate.
Defined.

(** ** The LED bar *)

(** C7.  With a fill level of 10 the mask handed to [setLEDs] is 0xFF00
    whatever the number of red LEDs: bits 8 to 15 are set and no other;
    the turns [i = 8] and [i = 9] shift the bit out of the 16-bit word
    and add nothing. *)
Theorem C7_shift_warning_mask (r : Z) :
  led_mask r 10 = Done 65280 /\
  (forall b, Z.testbit 65280 b = (8 <=? b) && (b <=? 15)) /\
  Avr.shl 1 (Avr.uint (8 + 8)) = 0 /\ Avr.shl 1 (Avr.uint (9 + 8)) = 0 /\
  (forall m m', state m = GOT_R -> redleds m = r ->
     handlePreviousState m = Done m' -> rpmleds m' = 10 ->
     exists before, module1 m' = before ++ [setLEDs 65280]).
Proof.
  assert (Hmask : led_mask r 10 = Done 65280).
  { unfold led_mask. rewrite led_loop_shift_warning by lia.
    vm_compute. reflexivity. }
  split; [exact Hmask|]. split; [|split; [reflexivity|split; [reflexivity|]]].
  - intros b. change 65280 with (Z.shiftl (Z.ones 8) 8).
    destruct (Z.ltb_spec b 0) as [Hneg|Hpos].
    + rewrite Z.testbit_neg_r by lia.
      destruct (Z.leb_spec 8 b); [lia | reflexivity].
    + rewrite Z.shiftl_spec by lia.
      destruct (Z.ltb_spec (b - 8) 0) as [Hlow|Hhigh].
      * rewrite Z.testbit_neg_r by lia.
        destruct (Z.leb_spec 8 b); [lia | reflexivity].
      * rewrite Z.testbit_ones by lia.
        destruct (Z.leb_spec 0 (b - 8)); destruct (Z.ltb_spec (b - 8) 8);
          destruct (Z.leb_spec 8 b); destruct (Z.leb_spec b 15);
          cbn [andb]; try reflexivity; lia.
  - intros m m' Hs Hred H H10.
    destruct (handlePreviousState_rpm m m' Hs H) as (_ & leds & Hl & Hcalls).
    rewrite Hred, H10, Hmask in Hl. injection Hl as <-.
    eexists. exact Hcalls.
Qed.

(** An instance: ceiling 4000, style 75%-100%, three red LEDs, a
    pending Rpm command with operand 4000. *)
Lemma C7_shift_warning_witness :
  exists m' before,
    handlePreviousState (set_currentValue 4000 (set_state GOT_R (set_rpmmax 4000 startup)))
    = Done m' /\ rpmleds m' = 10 /\ module1 m' = before ++ [setLEDs 65280].
Proof.
  destruct (C7_shift_warning_mask 3) as (_ & _ & _ & _ & H).
  set (m := set_currentValue 4000 (set_state GOT_R (set_rpmmax 4000 startup))).
  destruct (handlePreviousState m) as [m'|] eqn:Hrun; [|vm_compute in Hrun; discriminate].
  assert (H10 : rpmleds m' = 10).
  { vm_compute in Hrun. injection Hrun as <-. reflexivity. }
  destruct (H m m' eq_refl eq_refl Hrun H10) as [before Hb].
  exists m', before. split; [reflexivity|]. split; [exact H10 | exact Hb].
Defined.

(** The scenario of the shift warning on the wire: ceiling 4000, style
    75%-100%, three red LEDs, an RPM of 4000. *)
Example shift_warning_on_the_wire :
  omap (fun m => (rpmleds m, module1 m)) (feed "T4000R4000X" startup)
  = Done (10, [setLEDs 65280]).
Proof. vm_compute. reflexivity. Qed.

(** C4, as the sketch has it.  For a ceiling of at least 1 and either
    style the fill level is the linear image of the RPM over the input
    range of the style: [(rpm - floor) * 10 / (ceiling - floor)], the
    division truncating toward zero.  For an RPM
    inside the input range of the style it lies between 0 and 10, is 0
    at the floor and 10 at the top.  Outside the range nothing cuts it:
    it is at most 0 below the floor, where the loop lights no LED, and
    at least 10 above the top. *)
Theorem C4_fill_level_inside_domain (m : machine) :
  in_uint (carrpm m) -> in_uint (rpmmax m) -> 1 <= rpmmax m ->
  rpmstyle m = 0 \/ rpmstyle m = 1 ->
  exists s, rpm_steps m = Done s /\
    s = Z.quot ((carrpm m - domain_floor m) * 10) (domain_ceiling m - domain_floor m) /\
    0 <= domain_floor m < domain_ceiling m /\
    (domain_floor m <= carrpm m <= domain_ceiling m -> 0 <= s <= 10) /\
    (carrpm m = domain_floor m -> s = 0) /\
    (carrpm m = domain_ceiling m -> s = 10) /\
    (carrpm m < domain_floor m -> s <= 0 /\ led_mask (redleds m) s = Done 0) /\
    (domain_ceiling m < carrpm m -> 10 <= s).
Proof.
  intros Hr Hm H1 Hst.
  destruct (rpm_steps_linear m Hr Hm H1 Hst) as [-> Hdom].
  eexists; split; [reflexivity|]. split; [reflexivity|]. split; [exact Hdom|].
  set (lo := domain_floor m) in *. set (hi := domain_ceiling m) in *.
  repeat split.
  - apply quot_inside; lia.
  - apply quot_inside; lia.
  - intros ->. replace (lo - lo) with 0 by lia. reflexivity.
  - intros ->. apply quot_full. lia.
  - apply quot_below; lia.
  - apply led_mask_dark. apply quot_below; lia.
  - intros Hgt. apply quot_above; lia.
Qed.

(** An instance: ceiling 4000, style 75%-100%, RPM 3500, level 5. *)
Lemma C4_fill_level_witness :
  exists s, rpm_steps (set_carrpm 3500 (set_rpmmax 4000 startup)) = Done s /\
            0 <= s <= 10.
Proof.
  destruct (C4_fill_level_inside_domain (set_carrpm 3500 (set_rpmmax 4000 startup)))
    as (s & Hs & _ & _ & Hin & _).
  - vm_compute. split; [discriminate | reflexivity].
  - vm_compute. split; [discriminate | reflexivity].
  - vm_compute. discriminate.
  - right. reflexivity.
  - exists s. split; [exact Hs|].
    apply Hin. vm_compute. split; discriminate.
Defined.

(** C4, as the claim words it, fails: [map] does not clamp.  With the
    ceiling at 4000 and the style 75%-100%, an RPM of 1000 gives the
    level -20; in style 0 with the ceiling at 1000 an RPM of 60000 gives
    545; with the ceiling at 1 it gives 600000, a bound the 16-bit loop
    counter never reaches. *)
Lemma C4_fill_level_not_clamped :
  omap rpmleds (feed "T4000R1000X" startup) = Done (-20) /\
  ~ (0 <= -20 <= 10) /\
  rpm_steps (set_carrpm 60000 (set_rpmstyle 0 startup)) = Done 545 /\
  ~ (0 <= 545 <= 10) /\
  rpm_steps (set_carrpm 60000 (set_rpmmax 1 startup)) = Done 600000 /\
  feed "T1R60000X" startup = Fault NoReturn.
Proof.
  repeat split; try (vm_compute; reflexivity); lia.
Qed.

(** ** The settings *)

(** C3, where the sketch departs from it.  The table of kinds has seven
    entries, S G R O W F L, and none is the position: after Lap the
    selector goes back to Speed, no index ever denotes 'P', and the
    position is never drawn.  The red LED count does step modulo 9. *)
Theorem C3_position_not_in_cycle (m : machine) :
  sizeof_indicator = 7 /\
  (forall i, indicator_at i <> Some "P"%char) /\
  indicator_at 6 = Some "L"%char /\
  leftindicator (handleButtons btn1 (set_leftindicator 6 m)) = 0 /\
  rightindicator (handleButtons btn2 (set_rightindicator 6 m)) = 0 /\
  (forall value pad, show "P" value pad m = m) /\
  redleds (handleButtons btn5 m) = (redleds m + 1) mod 9.
Proof.
  split; [reflexivity|]. split.
  { intros i. unfold indicator_at. destruct (i <? 0); [discriminate|].
    unfold indicator.
    destruct (Z.to_nat i) as [|[|[|[|[|[|[|[|n]]]]]]]]; cbn [nth_error]; discriminate. }
  split; [reflexivity|]. split; [reflexivity|]. split; [reflexivity|].
  split; [|reflexivity].
  intros value pad. unfold show, indicator_is.
  assert (H : forall i, match indicator_at i with
                        | Some b => Ascii.eqb b "P"
                        | None => false
                        end = false).
  { intros i. unfold indicator_at. destruct (i <? 0); [reflexivity|].
    unfold indicator.
    destruct (Z.to_nat i) as [|[|[|[|[|[|[|[|n]]]]]]]]; reflexivity. }
  rewrite !H. reflexivity.
Qed.

(** ** The decoder, byte by byte *)

Lemma processIncomingByte_digit (c : ascii) (m : machine) :
  Arduino.isdigit c = true ->
  processIncomingByte c m = Done (set_currentValue (digit_step (currentValue m) c) m).
Proof. intros H. unfold processIncomingByte. rewrite H. reflexivity. Qed.

Lemma processIncomingByte_minus (m : machine) :
  processIncomingByte "-" m = Done (set_state GOT_G (set_reverse true m)).
Proof. reflexivity. Qed.

Lemma processIncomingByte_command (c : ascii) (m : machine) :
  ends_command c ->
  processIncomingByte c m =
    (m' <- handlePreviousState m ;; Done (set_state (next_state c) m')).
Proof.
  intros [Hd Hm]. unfold processIncomingByte. rewrite Hd.
  destruct (Ascii.eqb_spec c "-"); [contradiction|]. reflexivity.
Qed.

Lemma processIncoming_app (a b : list ascii) :
  forall m, processIncoming (a ++ b) m = (m' <- processIncoming a m ;; processIncoming b m').
Proof.
  induction a as [|c a IH]; intros m; [reflexivity|].
  cbn [app processIncoming].
  destruct (processIncomingByte c m) as [m1|]; cbn [bind]; [apply IH | reflexivity].
Qed.

Lemma set_currentValue_same (m : machine) : set_currentValue (currentValue m) m = m.
Proof. destruct m; reflexivity. Qed.

(** Digits touch the partial number and nothing else. *)
Lemma processIncoming_digits (ds : list ascii) :
  forall m, all_digits ds ->
  processIncoming ds m
  = Done (set_currentValue (fold_left digit_step ds (currentValue m)) m).
Proof.
  induction ds as [|d r IH]; intros m Hds.
  - cbn [processIncoming fold_left]. rewrite set_currentValue_same. reflexivity.
  - inversion Hds as [|? ? Hd Hr]; subst.
    cbn [processIncoming fold_left]. rewrite (processIncomingByte_digit d m Hd).
    cbn [bind]. rewrite (IH _ Hr). reflexivity.
Qed.

Lemma commands_of_digits (ds : list ascii) :
  forall m, all_digits ds -> commands_of ds m = [].
Proof.
  induction ds as [|d r IH]; intros m Hds; [reflexivity|].
  inversion Hds as [|? ? Hd Hr]; subst.
  cbn [commands_of]. unfold completes. rewrite Hd.
  rewrite (processIncomingByte_digit d m Hd). apply IH. exact Hr.
Qed.

(** In 16 bits the accumulated number is the spelled one, continued
    from whatever the partial number was. *)
Lemma accumulated_operand (ds : list ascii) :
  forall value,
  Avr.uint (fold_left digit_step ds value)
  = Avr.uint (value * 10 ^ Z.of_nat (List.length ds) + spelled ds).
Proof.
  induction ds as [|d r IH]; intros value.
  - cbn [fold_left List.length spelled Z.of_nat]. f_equal. lia.
  - cbn [fold_left List.length spelled]. rewrite IH.
    rewrite Nat2Z.inj_succ, Z.pow_succ_r by lia.
    unfold digit_step.
    destruct (sint_wraps (value * 10)) as [k1 ->].
    destruct (sint_wraps (value * 10 + k1 * 65536 + (Arduino.code d - 48))) as [k2 ->].
    set (p := 10 ^ Z.of_nat (List.length r)).
    set (dv := Arduino.code d - 48).
    replace ((value * 10 + k1 * 65536 + dv + k2 * 65536) * p + spelled r)
      with (value * (10 * p) + (dv * p + spelled r) + ((k1 + k2) * p) * 65536) by ring.
    unfold Avr.uint. apply Z_mod_plus_full.
Qed.

Lemma digit_value (d : ascii) : Arduino.isdigit d = true -> 0 <= Arduino.code d - 48 <= 9.
Proof.
  unfold Arduino.isdigit. intros H. apply andb_prop in H. destruct H as [H1 H2].
  apply Z.leb_le in H1. apply Z.leb_le in H2. lia.
Qed.

Lemma spelled_nonneg (ds : list ascii) : all_digits ds -> 0 <= spelled ds.
Proof.
  induction 1 as [|d r Hd Hr IH]; cbn [spelled]; [lia|].
  pose proof (digit_value d Hd).
  assert (0 <= 10 ^ Z.of_nat (List.length r)) by (apply Z.pow_nonneg; lia).
  nia.
Qed.

(** After a command byte the partial number is 0 and the state is the
    one of the byte. *)
Lemma after_command_byte (c : ascii) (m m0 : machine) :
  ends_command c -> processIncomingByte c m = Done m0 ->
  currentValue m0 = 0 /\ state m0 = next_state c.
Proof.
  intros Hc. rewrite (processIncomingByte_command c m Hc).
  destruct (handlePreviousState m) as [a|] eqn:Ha; cbn [bind]; [|discriminate].
  intros H; injection H as <-.
  apply handlePreviousState_spec in Ha. destruct Ha as (_ & _ & _ & Hcv & _).
  split; [exact Hcv | reflexivity].
Qed.

(** C8, as the sketch has it.  The digits fed after a command letter
    give the completed command the integer they spell reduced modulo
    2^16, the width of the partial number; the operand is the spelled
    integer itself whenever that is below 65536.  That operand is what
    the value processor of the letter is given when the next command
    byte arrives. *)
Theorem C8_operand_is_spelled_modulo_65536
    (m m0 : machine) (l c : ascii) (ds : list ascii) :
  ends_command l -> next_state l <> NONE -> all_digits ds -> ends_command c ->
  processIncomingByte l m = Done m0 ->
  exists m1, processIncoming ds m0 = Done m1 /\
    completes c m1 = Some (next_state l, spelled ds mod 65536, reverse m0) /\
    (spelled ds < 65536 ->
     completes c m1 = Some (next_state l, spelled ds, reverse m0)) /\
    (forall m2, processIncomingByte c m1 = Done m2 ->
     registers m2 = registers (processor (next_state l) (spelled ds mod 65536) m0)).
Proof.
  intros Hl Hk Hds [Hcd Hcm] H0.
  destruct (after_command_byte l m m0 Hl H0) as [Hcv Hst].
  eexists. split; [apply processIncoming_digits; exact Hds|].
  assert (Hc : completes c (set_currentValue (fold_left digit_step ds (currentValue m0)) m0)
               = Some (next_state l, spelled ds mod 65536, reverse m0)).
  { unfold completes. rewrite Hcd.
    destruct (Ascii.eqb_spec c "-"); [contradiction|].
    unfold pending. cbn [state currentValue reverse set_currentValue].
    rewrite Hst, accumulated_operand, Hcv.
    destruct (next_state l); try congruence; reflexivity. }
  split; [exact Hc|]. split.
  - intros Hsmall. rewrite Hc.
    pose proof (spelled_nonneg ds Hds).
    rewrite Z.mod_small by lia. reflexivity.
  - intros m2. rewrite processIncomingByte_command by (split; assumption).
    destruct (handlePreviousState _) as [a|] eqn:Ha; cbn [bind]; [|discriminate].
    intros H; injection H as <-.
    apply handlePreviousState_spec in Ha. destruct Ha as (Hr & _).
    cbn [state currentValue set_currentValue] in Hr.
    rewrite accumulated_operand, Hcv, Hst, processor_ignores_partial_number in Hr.
    exact Hr.
Qed.

(** An instance: S, then 9 and 5, then G, from the start-up state. *)
Lemma C8_operand_witness :
  exists m1, processIncoming ["9"; "5"]%char (set_state GOT_S startup) = Done m1 /\
             completes "G" m1 = Some (GOT_S, 95, false).
Proof.
  destruct (C8_operand_is_spelled_modulo_65536 startup (set_state GOT_S startup)
              "S" "G" ["9"; "5"]%char) as (m1 & H1 & _ & H3 & _).
  - split; [reflexivity | discriminate].
  - discriminate.
  - repeat constructor.
  - split; [reflexivity | discriminate].
  - reflexivity.
  - exists m1. split; [exact H1|]. apply H3. vm_compute. reflexivity.
Defined.

(** The example of the claim: after Y5, the bytes S95G complete a Speed
    command with operand 95. *)
Example start_then_speed_95 :
  commands "Y5S95G" startup = [(GOT_START, 5, false); (GOT_S, 95, false)] /\
  omap carspeed (feed "Y5S95G" startup) = Done 95.
Proof. split; vm_compute; reflexivity. Qed.

(** C8, as the claim words it, fails for a number that does not fit 16
    bits: the digits 70000 complete a Speed command with operand 4464. *)
Lemma C8_operand_wraps :
  spelled (list_ascii_of_string "70000") = 70000 /\
  commands "S70000X" startup = [(GOT_S, 4464, false)] /\
  commands "S70000X" startup
    <> [(GOT_S, spelled (list_ascii_of_string "70000"), false)] /\
  omap carspeed (feed "S70000X" startup) = Done 4464.
Proof.
  repeat split; try (vm_compute; reflexivity).
  vm_compute. discriminate.
Qed.

(** ** The decoder on its own *)

Lemma view_step (c : ascii) (m m' : machine) :
  processIncomingByte c m = Done m' -> view m' = decode c (view m).
Proof.
  unfold processIncomingByte, view, decode.
  destruct (Arduino.isdigit c).
  - intros H; injection H as <-. reflexivity.
  - destruct (Ascii.eqb_spec c "-") as [->|Hne]; cbn [negb bind].
    + intros H; injection H as <-. reflexivity.
    + destruct (handlePreviousState m) as [a|] eqn:Ha; cbn [bind]; [|discriminate].
      intros H; injection H as <-.
      apply handlePreviousState_spec in Ha.
      destruct Ha as (_ & Hr & _ & Hv & _).
      cbn [state currentValue reverse set_state]. rewrite Hr, Hv.
      destruct (state m); reflexivity.
Qed.

Lemma completes_view (c : ascii) (m : machine) :
  match completes c m with Some k => [k] | None => [] end = decoded_by c (view m).
Proof.
  unfold completes, decoded_by, view, pending.
  destruct (Arduino.isdigit c); [reflexivity|].
  destruct (Ascii.eqb c "-"); [reflexivity|].
  destruct (state m); reflexivity.
Qed.

Lemma run_view (cs : list ascii) :
  forall m m', processIncoming cs m = Done m' ->
  view m' = decode_all cs (view m) /\ commands_of cs m = decoded cs (view m).
Proof.
  induction cs as [|c r IH]; intros m m' H.
  - injection H as <-. split; reflexivity.
  - cbn [processIncoming commands_of decode_all decoded] in *.
    destruct (processIncomingByte c m) as [a|] eqn:Ha; cbn [bind] in H; [|discriminate].
    rewrite completes_view. rewrite <- (view_step c m a Ha).
    destruct (IH a m' H) as [-> ->]. split; reflexivity.
Qed.

Lemma rpm_free_returns (cs : list ascii) :
  forall m, rpm_free cs (view m) = true -> exists m', processIncoming cs m = Done m'.
Proof.
  induction cs as [|c r IH]; intros m H.
  - eexists; reflexivity.
  - cbn [rpm_free processIncoming] in *.
    apply andb_prop in H. destruct H as [Hc Hr].
    assert (Ha : exists a, processIncomingByte c m = Done a).
    { unfold processIncomingByte.
      destruct (Arduino.isdigit c); [eexists; reflexivity|].
      destruct (Ascii.eqb c "-"); cbn [negb bind]; [eexists; reflexivity|].
      cbn [orb view fst] in Hc.
      destruct (handlePreviousState_returns m) as [a ->].
      - intros E. rewrite E in Hc. discriminate.
      - cbn [bind]. eexists; reflexivity. }
    destruct Ha as [a Ha]. rewrite Ha. cbn [bind].
    apply IH. rewrite (view_step c m a Ha). exact Hr.
Qed.

(** A run that ends no Rpm command returns, and both the decoder it
    leaves and the commands it completes can be read off the decoder. *)
Lemma run_decoded (s : string) (m : machine) :
  rpm_free (list_ascii_of_string s) (view m) = true ->
  exists m', feed s m = Done m' /\
    view m' = decode_all (list_ascii_of_string s) (view m) /\
    commands s m = decoded (list_ascii_of_string s) (view m).
Proof.
  intros H. destruct (rpm_free_returns _ m H) as [m' Hm'].
  exists m'. split; [exact Hm'|]. apply run_view. exact Hm'.
Qed.

(** C10.  A minus that arrives while a command is pending completes
    nothing: the byte does not reach [handlePreviousState], so the
    pending update never happens and the partial number is kept.  The
    digits that follow extend it, and the command completed next is a
    Gear command, in reverse, whose operand spells the digits before and
    after the minus together.  The bytes S95-2X, from idle, complete no
    Speed command and one Gear command with operand 952 in reverse. *)
Theorem C10_minus_drops_command_keeps_operand
    (m : machine) (ds : list ascii) (c : ascii) :
  all_digits ds -> ends_command c ->
  completes "-" m = None /\
  processIncomingByte "-" m = Done (set_state GOT_G (set_reverse true m)) /\
  (exists m1, processIncoming ("-"%char :: ds) m = Done m1 /\
     commands_of ("-"%char :: ds) m = [] /\
     registers m1 = registers m /\ module1 m1 = module1 m /\
     completes c m1 =
       Some (GOT_G,
             Avr.uint (currentValue m * 10 ^ Z.of_nat (List.length ds) + spelled ds),
             true) /\
     exists m2, processIncomingByte c m1 = Done m2 /\
       registers m2 =
       registers (processGear
         (Avr.uint (currentValue m * 10 ^ Z.of_nat (List.length ds) + spelled ds)) m)) /\
  (state m = NONE ->
     commands "S95-2X" m = [(GOT_G, 952, true)] /\
     exists m2, feed "S95-2X" m = Done m2 /\ view m2 = (NONE, 0, false)).
Proof.
  intros Hds [Hcd Hcm]. split; [reflexivity|]. split; [reflexivity|]. split.
  - eexists. split.
    { cbn [processIncoming]. rewrite processIncomingByte_minus. cbn [bind].
      apply processIncoming_digits. exact Hds. }
    split.
    { cbn [commands_of]. rewrite processIncomingByte_minus.
      change (completes "-" m) with (@None command). cbn [app].
      apply commands_of_digits. exact Hds. }
    split; [reflexivity|]. split; [reflexivity|]. split.
    { unfold completes. rewrite Hcd.
      destruct (Ascii.eqb_spec c "-"); [contradiction|].
      unfold pending. cbn [state currentValue reverse set_currentValue set_state set_reverse].
      rewrite accumulated_operand. reflexivity. }
    rewrite processIncomingByte_command by (split; assumption).
    destruct (handlePreviousState_returns
                (set_currentValue (fold_left digit_step ds
                   (currentValue (set_state GOT_G (set_reverse true m))))
                   (set_state GOT_G (set_reverse true m)))) as [a Ha];
      [discriminate|].
    rewrite Ha. cbn [bind]. eexists. split; [reflexivity|].
    apply handlePreviousState_spec in Ha. destruct Ha as (Hr & _).
    cbn [state currentValue set_currentValue set_state set_reverse processor] in Hr.
    rewrite accumulated_operand in Hr.
    change (registers (set_state (next_state c) a)) with (registers a).
    rewrite Hr. reflexivity.
  - intros Hs.
    assert (Hm : view m = (NONE, currentValue m, reverse m))
      by (unfold view; rewrite Hs; reflexivity).
    destruct (run_decoded "S95-2X" m) as (m2 & H2 & Hv & Hc);
      [rewrite Hm; reflexivity|].
    rewrite Hm in Hv, Hc.
    split; [rewrite Hc; reflexivity|].
    exists m2. split; [exact H2 | rewrite Hv; reflexivity].
Qed.

(** On the registers: the speed is the one before, the gear is 952, and
    the module shows "R" on the right. *)
Example speed_dropped_gear_952 :
  omap (fun m => (carspeed m, cargear m, module1 m)) (feed "S95-2X" startup)
  = Done (0, 952, [setDisplayToString "R" 0 7]).
Proof. vm_compute. reflexivity. Qed.

(** An instance: the pending Speed 95 of the example. *)
Lemma C10_minus_witness :
  exists m1, processIncoming ["-"; "2"]%char
               (set_currentValue 95 (set_state GOT_S startup)) = Done m1 /\
             completes "X" m1 = Some (GOT_G, 952, true) /\
             commands "S95-2X" startup = [(GOT_G, 952, true)].
Proof.
  destruct (C10_minus_drops_command_keeps_operand
              (set_currentValue 95 (set_state GOT_S startup)) ["2"]%char "X")
    as (_ & _ & (m1 & H1 & _ & _ & _ & H2 & _) & _).
  - repeat constructor.
  - split; [reflexivity | discriminate].
  - exists m1. split; [exact H1|]. split; [exact H2|].
    destruct (C10_minus_drops_command_keeps_operand startup []%list "X")
      as (_ & _ & _ & H3).
    + constructor.
    + split; [reflexivity | discriminate].
    + apply H3. reflexivity.
Defined.

(** C2, as the sketch has it.  The minus opens a Gear command by itself,
    so in -G3X the letter G already completes one: a Gear command with
    operand 0 in reverse, which consumes the latch; the X then completes
    a Gear command with operand 3, forward.  The sign has its effect on
    the digits when it follows the letter: G-3X completes, first and
    only, a Gear command with operand 3 in reverse.  After either, G3X
    completes a Gear command with operand 3, forward. *)
Theorem C2_gear_sign_after_letter (m : machine) :
  state m = NONE -> currentValue m = 0 -> reverse m = false ->
  commands "-G3X" m = [(GOT_G, 0, true); (GOT_G, 3, false)] /\
  commands "G-3X" m = [(GOT_G, 3, true)] /\
  (exists m', feed "-G3X" m = Done m' /\
     commands "G3X" m' = [(GOT_G, 3, false)]) /\
  (exists m', feed "G-3X" m = Done m' /\
     commands "G3X" m' = [(GOT_G, 3, false)]).
Proof.
  intros Hs Hv Hr.
  assert (Hm : view m = (NONE, 0, false)) by (unfold view; congruence).
  destruct (run_decoded "-G3X" m) as (a & Ha & Hva & Hca);
    [rewrite Hm; reflexivity|].
  destruct (run_decoded "G-3X" m) as (b & Hb & Hvb & Hcb);
    [rewrite Hm; reflexivity|].
  rewrite Hm in *.
  destruct (run_decoded "G3X" a) as (a' & _ & _ & Hca');
    [rewrite Hva; reflexivity|].
  destruct (run_decoded "G3X" b) as (b' & _ & _ & Hcb');
    [rewrite Hvb; reflexivity|].
  rewrite Hva in Hca'. rewrite Hvb in Hcb'.
  split; [rewrite Hca; reflexivity|]. split; [rewrite Hcb; reflexivity|].
  split; [exists a | exists b]; (split; [assumption|]).
  - rewrite Hca'. reflexivity.
  - rewrite Hcb'. reflexivity.
Qed.

Lemma C2_gear_sign_witness :
  commands "-G3X" startup = [(GOT_G, 0, true); (GOT_G, 3, false)] /\
  commands "G-3X" startup = [(GOT_G, 3, true)].
Proof.
  destruct (C2_gear_sign_after_letter startup) as (H1 & H2 & _);
    [reflexivity | reflexivity | reflexivity |].
  split; [exact H1 | exact H2].
Defined.

(** C2, as the claim words it, fails: the first Gear command -G3X
    completes has operand 0, not 3, and the gear 3 that follows is drawn
    as a forward gear ("R" belongs to the gear 0 before it). *)
Lemma C2_minus_before_letter :
  hd_error (commands "-G3X" startup) = Some (GOT_G, 0, true) /\
  hd_error (commands "-G3X" startup) <> Some (GOT_G, 3, true) /\
  omap module1 (feed "-G3X" startup)
  = Done [setDisplayToString "R" 0 7; setDisplayToString "3" 0 7] /\
  omap module1 (feed "-G" startup) = Done [setDisplayToString "R" 0 7].
Proof.
  repeat split; try (vm_compute; reflexivity).
  vm_compute. discriminate.
Qed.

(** ** Commit on the next command *)

(** A pending Rpm command returns when, once stored, the RPM is within
    a ceiling of at least 1 and the style is one of the two the button
    offers. *)
Lemma rpm_command_returns (m : machine) :
  state m = GOT_R ->
  let p := processRPM (Avr.uint (currentValue m)) m in
  in_uint (rpmmax p) -> 1 <= rpmmax p -> carrpm p <= rpmmax p ->
  rpmstyle m = 0 \/ rpmstyle m = 1 ->
  exists m', handlePreviousState m = Done m'.
Proof.
  intros Hs p Hu H1 Hle Hst.
  destruct (processRPM_fields (Avr.uint (currentValue m)) m) as (Hc & _ & Hy & _).
  fold p in Hc, Hy.
  destruct (rpm_steps_at_most_10 p) as (s & Hsteps & Hs10); try assumption.
  - rewrite Hc. apply uint_range.
  - rewrite Hy. exact Hst.
  - apply (handlePreviousState_rpm_returns m s Hs Hsteps). lia.
Qed.

(** The registers a value processor leaves, register by register. *)
Lemma processor_registers (k : states) (v : Z) (m : machine) :
  registers (processor k v m) = committed k v m.
Proof.
  destruct k; cbn [processor committed];
    [reflexivity | apply processRPM_registers | ..];
    open_process; unfold registers; fields; split_ifs; reflexivity.
Qed.

(** A command byte returns for every pending command but Rpm, and for
    Rpm when the operand is below 50000 or within a ceiling of at least
    1, in one of the two styles. *)
Lemma command_byte_returns (c : ascii) (m : machine) :
  ends_command c ->
  (state m <> GOT_R -> exists m', processIncomingByte c m = Done m') /\
  (state m = GOT_R -> in_uint (rpmmax m) -> 1 <= rpmmax m ->
   Avr.uint (currentValue m) < 50000 \/ Avr.uint (currentValue m) <= rpmmax m ->
   rpmstyle m = 0 \/ rpmstyle m = 1 ->
   exists m', processIncomingByte c m = Done m').
Proof.
  intros Hc. rewrite (processIncomingByte_command c m Hc). split.
  - intros Hs. destruct (handlePreviousState_returns m Hs) as [a ->].
    cbn [bind]. eexists; reflexivity.
  - intros Hs Hu H1 Hv Hst.
    destruct (rpm_command_returns m Hs) as [a ->]; [| | | exact Hst |].
    4: cbn [bind]; eexists; reflexivity.
    all: destruct (processRPM_fields (Avr.uint (currentValue m)) m) as (Hc' & Hm' & _);
      rewrite ?Hc', Hm'; pose proof (uint_range (currentValue m));
      unfold in_uint in *;
      destruct (Z.ltb_spec (rpmmax m) (Avr.uint (currentValue m)));
      destruct (Z.ltb_spec (Avr.uint (currentValue m)) 50000);
      cbn [andb]; lia.
Qed.

(** C1, as the sketch has it.  With a command pending, the digits that
    follow change the partial number only: no register, not the latch,
    not the module.  The byte after them decides.  If it is neither a
    digit nor a minus, the registers take the update of the pending
    command at that byte, with the operand accumulated so far: the
    register of the command is set to the operand, the ceiling is
    raised by an Rpm operand above it and below 50000, the speed is
    multiplied when the multiplier is on, and every other register is
    as before; the byte returns for every command but Rpm, and for Rpm
    when the operand is below 50000 or within a ceiling of at least 1.
    If it is a minus, no register changes at the minus, a Gear command
    with the same operand and the latch up takes the place of the
    pending one, and at the next command byte it is the gear register
    that takes the operand, later digits included: the update of the
    command that was pending is never applied.  From idle, R4250 leaves
    every register as it was, the Rpm command still pending; the T that
    follows stores 4250 in the rpm register. *)
Theorem C1_commit_unless_minus (m : machine) (ds : list ascii) :
  all_digits ds ->
  let v := Avr.uint (currentValue m * 10 ^ Z.of_nat (List.length ds) + spelled ds) in
  (exists m1, processIncoming ds m = Done m1 /\
     snapshot m1 = snapshot m /\ state m1 = state m /\ module1 m1 = module1 m /\
     pending m1 = match state m with NONE => None | k => Some (k, v, reverse m) end) /\
  (forall c, ends_command c ->
     (forall m', processIncoming (ds ++ [c]) m = Done m' ->
        registers m' = committed (state m) v m) /\
     (state m <> GOT_R -> exists m', processIncoming (ds ++ [c]) m = Done m') /\
     (state m = GOT_R -> in_uint (rpmmax m) -> 1 <= rpmmax m ->
      v < 50000 \/ v <= rpmmax m -> rpmstyle m = 0 \/ rpmstyle m = 1 ->
      exists m', processIncoming (ds ++ [c]) m = Done m')) /\
  (exists m1, processIncoming (ds ++ ["-"%char]) m = Done m1 /\
     registers m1 = registers m /\ module1 m1 = module1 m /\
     pending m1 = Some (GOT_G, v, true)) /\
  (forall es c, all_digits es -> ends_command c ->
     exists m', processIncoming (ds ++ "-"%char :: es ++ [c]) m = Done m' /\
       registers m' =
       committed GOT_G
         (Avr.uint (currentValue m * 10 ^ Z.of_nat (List.length (ds ++ es))
                    + spelled (ds ++ es))) m) /\
  (state m = NONE -> in_uint (rpmmax m) -> rpmstyle m = 0 \/ rpmstyle m = 1 ->
     (exists m1, feed "R4250" m = Done m1 /\
        snapshot m1 = snapshot m /\ pending m1 = Some (GOT_R, 4250, reverse m)) /\
     (exists m2, feed "R4250T" m = Done m2 /\ carrpm m2 = 4250)).
Proof.
  intros Hds v.
  set (m1 := set_currentValue (fold_left digit_step ds (currentValue m)) m).
  assert (Hrun : processIncoming ds m = Done m1)
    by (apply processIncoming_digits; exact Hds).
  assert (Hv : Avr.uint (currentValue m1) = v)
    by (subst v; apply accumulated_operand).
  split; [|split; [|split; [|split]]].
  - exists m1. split; [exact Hrun|]. split; [reflexivity|].
    split; [reflexivity|]. split; [reflexivity|].
    unfold pending. change (state m1) with (state m). rewrite Hv.
    destruct (state m); reflexivity.
  - intros c Hc.
    assert (Hstep : processIncoming (ds ++ [c]) m
                    = (a <- processIncomingByte c m1 ;; Done a)).
    { rewrite processIncoming_app, Hrun. reflexivity. }
    rewrite Hstep.
    destruct (command_byte_returns c m1 Hc) as [Hother Hrpm].
    rewrite Hv in Hrpm.
    split; [|split].
    + intros m'. rewrite (processIncomingByte_command c m1 Hc).
      destruct (handlePreviousState m1) as [a|] eqn:Ha; cbn [bind]; [|discriminate].
      intros H; injection H as <-.
      apply handlePreviousState_spec in Ha. destruct Ha as (Hr & _).
      rewrite Hv in Hr. change (state m1) with (state m) in Hr.
      unfold m1 in Hr. rewrite processor_ignores_partial_number in Hr.
      rewrite <- processor_registers, <- Hr. reflexivity.
    + intros Hs. destruct (Hother Hs) as [a ->]. cbn [bind]. eexists; reflexivity.
    + intros Hs Hu H1 Hlt Hst.
      destruct (Hrpm Hs Hu H1 Hlt Hst) as [a ->]. cbn [bind]. eexists; reflexivity.
  - exists (set_state GOT_G (set_reverse true m1)). split.
    + rewrite processIncoming_app, Hrun. reflexivity.
    + split; [reflexivity|]. split; [reflexivity|].
      unfold pending. cbn [state set_state].
      change (currentValue (set_state GOT_G (set_reverse true m1)))
        with (currentValue m1).
      rewrite Hv. reflexivity.
  - intros es c Hes Hc.
    set (m2 := set_state GOT_G (set_reverse true m1)).
    set (m3 := set_currentValue (fold_left digit_step es (currentValue m2)) m2).
    assert (Hrun2 : processIncoming ds m = Done m1) by exact Hrun.
    assert (Hrun3 : processIncoming es m2 = Done m3)
      by (apply processIncoming_digits; exact Hes).
    destruct (handlePreviousState_returns m3) as [a Ha]; [discriminate|].
    exists (set_state (next_state c) a). split.
    + rewrite processIncoming_app, Hrun2. cbn [bind app processIncoming].
      rewrite processIncomingByte_minus. cbn [bind]. fold m2.
      rewrite processIncoming_app, Hrun3. cbn [bind processIncoming].
      rewrite (processIncomingByte_command c m3 Hc), Ha. reflexivity.
    + apply handlePreviousState_spec in Ha. destruct Ha as (Hr & _).
      change (registers (set_state (next_state c) a)) with (registers a).
      rewrite Hr. change (state m3) with GOT_G.
      rewrite processor_registers.
      replace (Avr.uint (currentValue m3))
        with (Avr.uint (currentValue m * 10 ^ Z.of_nat (List.length (ds ++ es))
                        + spelled (ds ++ es))).
      * reflexivity.
      * rewrite <- accumulated_operand, fold_left_app. reflexivity.
  - intros Hs Hu Hst.
    assert (H1 : feed "R4250" m
                 = Done (set_currentValue 4250 (set_state GOT_R (set_currentValue 0 m)))).
    { unfold feed. cbn [list_ascii_of_string processIncoming].
      assert (HR : processIncomingByte "R" m
                   = Done (set_state GOT_R (set_currentValue 0 m))).
      { unfold processIncomingByte, handlePreviousState. rewrite Hs. reflexivity. }
      rewrite HR. cbn [bind]. reflexivity. }
    set (r1 := set_currentValue 4250 (set_state GOT_R (set_currentValue 0 m))) in *.
    split.
    + exists r1. split; [exact H1|]. split; reflexivity.
    + assert (Hret : exists a, handlePreviousState r1 = Done a).
      { apply rpm_command_returns; [reflexivity | | | | exact Hst].
        all: destruct (processRPM_fields (Avr.uint (currentValue r1)) r1) as (Hc & Hm & _);
          rewrite ?Hc, Hm; change (Avr.uint (currentValue r1)) with 4250;
          change (rpmmax r1) with (rpmmax m); unfold in_uint in *;
          destruct (Z.ltb_spec (rpmmax m) 4250); cbn [andb Z.ltb Z.compare Pos.compare
            Pos.compare_cont]; lia. }
      destruct Hret as [a Ha].
      exists (set_state GOT_MAXRPM a). split.
      * unfold feed in *. cbn [list_ascii_of_string] in *.
        change ["R"; "4"; "2"; "5"; "0"; "T"]%char
          with (["R"; "4"; "2"; "5"; "0"] ++ ["T"])%char%list.
        rewrite processIncoming_app, H1. cbn [bind processIncoming].
        rewrite (processIncomingByte_command "T" r1)
          by (split; [reflexivity | discriminate]).
        rewrite Ha. reflexivity.
      * apply handlePreviousState_spec in Ha. destruct Ha as (Hr & _).
        unfold registers in Hr. injection Hr as _ _ Hrpm _.
        cbn [carrpm set_state]. rewrite Hrpm.
        apply (processRPM_fields 4250 r1).
Qed.

(** An instance: a Speed command pending with the digits 9 and 5 read.
    The X that follows stores 95 in the speed register; a minus, a 2
    and the X instead store 952 in the gear register and leave the
    speed as it was. *)
Lemma C1_commit_witness :
  (forall m', processIncoming (["9"; "5"] ++ ["X"])%char%list (set_state GOT_S startup)
              = Done m' ->
     registers m' = [95; 0; 0; 0; 0; 0; 0; 0; 1000]) /\
  (exists m', processIncoming (["9"; "5"] ++ "-" :: ["2"] ++ ["X"])%char%list
                (set_state GOT_S startup) = Done m' /\
     registers m' = [0; 952; 0; 0; 0; 0; 0; 0; 1000]).
Proof.
  destruct (C1_commit_unless_minus (set_state GOT_S startup) ["9"; "5"]%char)
    as (_ & Hc & _ & Hm & _).
  - repeat constructor.
  - split.
    + intros m' H. destruct (Hc "X"%char) as [Hr _]; [split; [reflexivity | discriminate]|].
      rewrite (Hr m' H). reflexivity.
    + destruct (Hm ["2"]%char "X"%char) as (m' & Hrun & Hr).
      * repeat constructor.
      * split; [reflexivity | discriminate].
      * exists m'. split; [exact Hrun|]. rewrite Hr. reflexivity.
Defined.

(** C1, where the sketch departs from it.  From the start-up state S95
    leaves the Speed command pending with the operand 95.  Feeding -2X
    then, X is the next byte that is neither a digit nor a minus: the
    speed register is still 0, not 95, and the gear register is 952. *)
Lemma C1_minus_cancels_pending :
  exists m1 m2,
    feed "S95" startup = Done m1 /\ pending m1 = Some (GOT_S, 95, false) /\
    feed "-2X" m1 = Done m2 /\
    carspeed m2 = carspeed startup /\ carspeed m2 <> 95 /\ cargear m2 = 952.
Proof.
  eexists. eexists.
  split; [vm_compute; reflexivity|].
  split; [vm_compute; reflexivity|].
  split; [vm_compute; reflexivity|].
  split; [reflexivity|]. split; [discriminate | reflexivity].
Qed.

(** ** Applying a command twice *)

(** The value processors write the same registers again when they are
    given a state that already holds what they wrote. *)
Lemma processor_settled (k : states) (u : Z) (a b : machine) :
  registers b = registers (processor k u a) ->
  speedmultiplier b = speedmultiplier a ->
  registers (processor k u b) = registers b.
Proof.
  intros Hr Hs. destruct k; cbn [processor] in *;
    [ | rewrite processRPM_registers in * | .. ]; open_process;
    unfold registers in *.
  - reflexivity.
  - injection Hr as _ _ Hrpm _ _ _ _ _ Hmax. rewrite <- Hrpm.
    do 8 f_equal. rewrite Hrpm.
    destruct ((rpmmax a <? u) && (u <? 50000)) eqn:Ea.
    + destruct (Z.ltb_spec (rpmmax b) u) as [Hlt|_]; [lia | reflexivity].
    + rewrite Hmax, Ea. reflexivity.
  - rewrite Hs. revert Hr. destruct (speedmultiplier a); intros Hr; fields;
      injection Hr as Hx _; congruence.
  - fields. injection Hr as _ Hx _. congruence.
  - fields. injection Hr as _ _ _ Hx _. congruence.
  - fields. injection Hr as _ _ _ _ Hx _. congruence.
  - fields. injection Hr as _ _ _ _ _ Hx _. congruence.
  - fields. injection Hr as _ _ _ _ _ _ Hx _. congruence.
  - fields. injection Hr as _ _ _ _ _ _ _ Hx _. congruence.
  - fields. reflexivity.
  - fields. injection Hr as _ _ _ _ _ _ _ _ Hx. congruence.
  - fields. injection Hr as _ _ _ _ _ _ _ _ Hx. congruence.
Qed.

(** A second application returns whenever the first did, and leaves the
    snapshot the first left. *)
Lemma apply_again (k : states) (v : Z) (m m1 : machine) :
  apply k v m = Done m1 ->
  exists m2, apply k v m1 = Done m2 /\ snapshot m2 = snapshot m1.
Proof.
  unfold apply. intros H1.
  set (a := set_currentValue v (set_state k m)) in *.
  set (b := set_currentValue v (set_state k m1)).
  pose proof (handlePreviousState_spec a m1 H1) as (Hr1 & Hv1 & _ & _ & Hs1 & _ & _ & Hy1 & Hd1).
  change (state a) with k in *. change (currentValue a) with v in *.
  assert (Hret : exists m2, handlePreviousState b = Done m2).
  { destruct k; try (apply handlePreviousState_returns; discriminate).
    destruct (handlePreviousState_rpm a m1 eq_refl H1) as (Hsteps & leds & Hl & _).
    change (currentValue a) with v in *.
    apply (handlePreviousState_rpm_returns b (rpmleds m1) eq_refl).
    - change (currentValue b) with v.
      destruct (processRPM_fields (Avr.uint v) a) as (Ca & Ma & Ya & La & _).
      destruct (processRPM_fields (Avr.uint v) b) as (Cb & Mb & Yb & Lb & _).
      assert (Hmax : rpmmax (processRPM (Avr.uint v) b) = rpmmax (processRPM (Avr.uint v) a)).
      { assert (Hreg : registers (processRPM (Avr.uint v) b) = registers b).
        { apply (processor_settled GOT_R (Avr.uint v) a b); [exact Hr1 | exact Hs1]. }
        unfold registers in Hreg, Hr1.
        injection Hreg as _ _ _ _ _ _ _ _ Hx. injection Hr1 as _ _ _ _ _ _ _ _ Hy.
        change (rpmmax b) with (rpmmax m1) in Hx. congruence. }
      rewrite <- Hsteps. unfold rpm_steps.
      rewrite Ca, Cb, Hmax, Ya, Yb, La, Lb.
      change (rpmstyle b) with (rpmstyle m1). change (rpmleds b) with (rpmleds m1).
      rewrite Hy1.
      change (rpmstyle a) with (rpmstyle m). change (rpmleds a) with (rpmleds m).
      destruct (rpmstyle m =? 0) eqn:E0; [reflexivity|].
      destruct (rpmstyle m =? 1) eqn:E1; [reflexivity|].
      revert Hsteps. unfold rpm_steps. rewrite Ya, La.
      change (rpmstyle a) with (rpmstyle m). change (rpmleds a) with (rpmleds m).
      rewrite E0, E1. intros Hsteps. symmetry. exact Hsteps.
    - destruct (Z.le_gt_cases (rpmleds m1) 65535) as [Hle|Hgt]; [exact Hle|].
      rewrite (led_mask_never _ _ Hgt) in Hl. discriminate. }
  destruct Hret as [m2 H2]. exists m2. split; [exact H2|].
  pose proof (handlePreviousState_spec b m2 H2) as (Hr2 & Hv2 & _).
  change (state b) with k in *. change (currentValue b) with v in *.
  unfold snapshot. f_equal.
  - rewrite Hr2. apply (processor_settled k (Avr.uint v) a b); [exact Hr1 | exact Hs1].
  - rewrite Hv2, Hv1. change (reverse b) with (reverse m1). rewrite Hv1.
    destruct k; reflexivity.
Qed.

(** C9.  Applying a command a second time changes nothing in the
    snapshot: with the same command the second application returns
    whenever the first does, and the speed, gear, rpm, oil, water, fuel,
    lap, position, reverse latch and ceiling it leaves are those the
    first left.  For the Rpm command the ceiling, once raised to the
    operand, is not raised again. *)
Theorem C9_apply_twice_same_snapshot (k : states) (v : Z) (m : machine) :
  omap snapshot (m1 <- apply k v m ;; apply k v m1) = omap snapshot (apply k v m) /\
  (k <> GOT_R -> exists m1, apply k v m = Done m1) /\
  (forall m1 m2, apply GOT_R v m = Done m1 -> apply GOT_R v m1 = Done m2 ->
     rpmmax m2 = rpmmax m1).
Proof.
  split; [|split].
  - destruct (apply k v m) as [m1|f] eqn:H1; cbn [bind omap]; [|reflexivity].
    destruct (apply_again k v m m1 H1) as (m2 & -> & Hsnap).
    cbn [omap]. rewrite Hsnap. reflexivity.
  - intros Hk. unfold apply. apply handlePreviousState_returns. exact Hk.
  - intros m1 m2 H1 H2.
    destruct (apply_again GOT_R v m m1 H1) as (m2' & H2' & Hsnap).
    rewrite H2 in H2'. injection H2' as <-.
    unfold snapshot, registers in Hsnap.
    injection Hsnap as _ _ _ _ _ _ _ _ Hmax _. exact Hmax.
Qed.

(** An instance: Rpm 4250 twice from the start-up state; the first
    raises the ceiling from 1000 to 4250, the second leaves it. *)
Lemma C9_apply_twice_witness :
  exists m1 m2, apply GOT_R 4250 startup = Done m1 /\ apply GOT_R 4250 m1 = Done m2 /\
    rpmmax m1 = 4250 /\ rpmmax m2 = rpmmax m1.
Proof.
  destruct (C9_apply_twice_same_snapshot GOT_R 4250 startup) as (_ & _ & H).
  eexists. eexists.
  split; [vm_compute; reflexivity|].
  split; [vm_compute; reflexivity|].
  split; [reflexivity|].
  eapply H; vm_compute; reflexivity.
Defined.

(** * The rest of the sketch *)

(** ** The text of a number *)

Lemma digit_char (v : Z) :
  0 <= v < 10 ->
  Arduino.code (ascii_of_N (Z.to_N (48 + v))) = 48 + v /\
  Arduino.isdigit (ascii_of_N (Z.to_N (48 + v))) = true.
Proof.
  intros Hv.
  assert (Hc : Arduino.code (ascii_of_N (Z.to_N (48 + v))) = 48 + v).
  { unfold Arduino.code. rewrite N_ascii_embedding by lia. lia. }
  split; [exact Hc|]. unfold Arduino.isdigit. rewrite Hc.
  apply andb_true_intro. split; apply Z.leb_le; lia.
Qed.

Lemma length_cons (c : ascii) (s : string) :
  Arduino.length (String c s) = Arduino.length s + 1.
Proof. unfold Arduino.length. cbn [String.length]. lia. Qed.

Lemma length_nonneg (s : string) : 0 <= Arduino.length s.
Proof. unfold Arduino.length. lia. Qed.

(** [utoa] writes the digits of [v] in front of what is there. *)
Lemma utoa_spelled (fuel : nat) :
  forall v acc, 0 <= v < 10 ^ Z.of_nat fuel ->
  spelled (list_ascii_of_string (Arduino.utoa fuel v acc))
  = v * 10 ^ Arduino.length acc + spelled (list_ascii_of_string acc).
Proof.
  induction fuel as [|f IH]; intros v acc Hv.
  - cbn [Arduino.utoa]. change (10 ^ Z.of_nat 0) with 1 in Hv.
    replace v with 0 by lia. lia.
  - rewrite Nat2Z.inj_succ, Z.pow_succ_r in Hv by lia.
    cbn [Arduino.utoa].
    pose proof (Z.mod_pos_bound v 10 ltac:(lia)) as Hm.
    pose proof (Z.div_mod v 10 ltac:(lia)) as Hdm.
    destruct (digit_char (v mod 10) Hm) as [Hc _].
    assert (Hhead : spelled (list_ascii_of_string
                      (String (ascii_of_N (Z.to_N (48 + v mod 10))) acc))
                    = (v mod 10) * 10 ^ Arduino.length acc
                      + spelled (list_ascii_of_string acc)).
    { cbn [list_ascii_of_string spelled]. rewrite Hc.
      unfold Arduino.length.
      replace (List.length (list_ascii_of_string acc)) with (String.length acc).
      - f_equal. f_equal. lia.
      - clear. induction acc as [|a s IHs]; cbn; [reflexivity | f_equal; exact IHs]. }
    destruct (Z.eqb_spec (v / 10) 0) as [E|E].
    + rewrite Hhead. replace (v mod 10) with v by lia. reflexivity.
    + rewrite IH.
      * rewrite Hhead, length_cons.
        rewrite Z.pow_add_r by (pose proof (length_nonneg acc); lia).
        change (10 ^ 1) with 10. rewrite Hdm at 3. ring.
      * split; [apply Z.div_pos; lia | apply Z.div_lt_upper_bound; lia].
Qed.

Lemma utoa_digits (fuel : nat) :
  forall v acc, 0 <= v -> all_digits (list_ascii_of_string acc) ->
  all_digits (list_ascii_of_string (Arduino.utoa fuel v acc)).
Proof.
  induction fuel as [|f IH]; intros v acc Hv Hacc; [exact Hacc|].
  cbn [Arduino.utoa].
  pose proof (Z.mod_pos_bound v 10 ltac:(lia)) as Hm.
  destruct (digit_char (v mod 10) Hm) as [_ Hd].
  assert (Hacc' : all_digits (list_ascii_of_string
                    (String (ascii_of_N (Z.to_N (48 + v mod 10))) acc))).
  { cbn [list_ascii_of_string]. constructor; assumption. }
  destruct (v / 10 =? 0); [exact Hacc'|].
  apply IH; [apply Z.div_pos; lia | exact Hacc'].
Qed.

(** A number below [10^k] takes at most [k] characters, and at least
    one. *)
Lemma utoa_length (fuel : nat) :
  forall v acc k, 0 <= v < 10 ^ k -> 1 <= k ->
  Arduino.length acc + (if (fuel =? 0)%nat then 0 else 1)
    <= Arduino.length (Arduino.utoa fuel v acc) <= Arduino.length acc + k.
Proof.
  induction fuel as [|f IH]; intros v acc k Hv Hk.
  - cbn [Arduino.utoa Nat.eqb]. lia.
  - cbn [Arduino.utoa Nat.eqb].
    destruct (Z.eqb_spec (v / 10) 0) as [E|E].
    + rewrite length_cons. lia.
    + assert (H10 : 10 <= v).
      { destruct (Z.lt_ge_cases v 10) as [Hlt|Hge]; [|exact Hge].
        rewrite Z.div_small in E by lia. congruence. }
      assert (Hk2 : 2 <= k).
      { destruct (Z.eq_dec k 1) as [->|]; [|lia]. change (10 ^ 1) with 10 in Hv. lia. }
      assert (Hq : 0 <= v / 10 < 10 ^ (k - 1)).
      { split; [apply Z.div_pos; lia|].
        apply Z.div_lt_upper_bound; [lia|].
        rewrite <- Z.pow_succ_r by lia. replace (Z.succ (k - 1)) with k by lia. lia. }
      specialize (IH (v / 10) (String (ascii_of_N (Z.to_N (48 + v mod 10))) acc)
                     (k - 1) Hq ltac:(lia)).
      rewrite length_cons in IH. destruct (f =? 0)%nat; lia.
Qed.

(** ** Padding *)

Lemma zero_pad_length (fuel : nat) :
  forall pad text, pad - Arduino.length text <= Z.of_nat fuel ->
  Arduino.length (zero_pad fuel pad text) = Z.max pad (Arduino.length text).
Proof.
  induction fuel as [|f IH]; intros pad text Hf.
  - cbn [zero_pad]. lia.
  - cbn [zero_pad]. destruct (Z.ltb_spec (Arduino.length text) pad) as [Hlt|Hge].
    + rewrite IH by (rewrite length_cons; lia). rewrite length_cons. lia.
    + lia.
Qed.

Lemma zero_pad_spelled (fuel : nat) :
  forall pad text,
  spelled (list_ascii_of_string (zero_pad fuel pad text))
  = spelled (list_ascii_of_string text) /\
  (all_digits (list_ascii_of_string text) ->
   all_digits (list_ascii_of_string (zero_pad fuel pad text))).
Proof.
  induction fuel as [|f IH]; intros pad text; [split; [reflexivity | auto]|].
  cbn [zero_pad]. destruct (Arduino.length text <? pad); [|split; [reflexivity | auto]].
  destruct (IH pad (String "0" text)) as [Hs Hd]. split.
  - rewrite Hs. cbn [list_ascii_of_string spelled].
    change (Arduino.code "0" - 48) with 0. lia.
  - intros Ht. apply Hd. cbn [list_ascii_of_string]. constructor; [reflexivity | exact Ht].
Qed.

(** X1.  What [printModule] writes reads back: the text of the one call
    it makes consists of digits only, and the integer these digits
    spell, read the way the decoder reads digits, is the value printed;
    padding adds zeros in front and never cuts the number. *)
Theorem printModule_text_spells_value (value pad side : Z) (m : machine) :
  in_uint value ->
  exists text offset,
    printModule value pad side m = call (setDisplayToString text 0 offset) m /\
    all_digits (list_ascii_of_string text) /\
    spelled (list_ascii_of_string text) = value /\
    Avr.uint (fold_left digit_step (list_ascii_of_string text) 0) = value.
Proof.
  intros Hv. unfold printModule. eexists. eexists. split; [reflexivity|].
  destruct (zero_pad_spelled (Z.to_nat pad) pad (Arduino.String_of value)) as [Hs Hd].
  assert (Hsp : spelled (list_ascii_of_string (Arduino.String_of value)) = value).
  { unfold Arduino.String_of. rewrite utoa_spelled.
    - cbn. lia.
    - unfold in_uint in Hv. change (10 ^ Z.of_nat 5) with 100000. lia. }
  split; [|split].
  - apply Hd. apply utoa_digits; [unfold in_uint in Hv; lia | constructor].
  - rewrite Hs. exact Hsp.
  - rewrite accumulated_operand, Hs, Hsp. rewrite Z.mul_0_l, Z.add_0_l.
    apply uint_small. exact Hv.
Qed.

Lemma printModule_text_witness :
  exists text offset,
    printModule 95 3 LEFT startup = call (setDisplayToString text 0 offset) startup /\
    spelled (list_ascii_of_string text) = 95.
Proof.
  destruct (printModule_text_spells_value 95 3 LEFT startup) as (t & o & H1 & _ & H2 & _).
  - unfold in_uint. lia.
  - exists t, o. split; [exact H1 | exact H2].
Defined.

(** X2.  The width of what [printModule] writes: the text is [pad]
    characters long when the value has at most [pad] digits and as long
    as the number otherwise (at most 5 for a 16-bit value); on the left
    it starts at column 0, on the right it ends at column 8.  So two
    values of at most four digits, padded to at most four, never share
    a column. *)
Theorem printModule_width (value pad side : Z) (m : machine) :
  in_uint value -> 1 <= pad ->
  exists text offset,
    printModule value pad side m = call (setDisplayToString text 0 offset) m /\
    Arduino.length text = Z.max pad (Arduino.length (Arduino.String_of value)) /\
    1 <= Arduino.length (Arduino.String_of value) <= 5 /\
    (value < 10 ^ pad -> Arduino.length text = pad) /\
    (side = LEFT -> offset = 0) /\
    (side <> LEFT -> offset + Arduino.length text = 8) /\
    (value < 10 ^ pad -> pad <= 4 -> side <> LEFT -> 4 <= offset).
Proof.
  intros Hv Hp. unfold printModule, in_uint in *. eexists. eexists.
  split; [reflexivity|].
  assert (Hlen : Arduino.length (zero_pad (Z.to_nat pad) pad (Arduino.String_of value))
                 = Z.max pad (Arduino.length (Arduino.String_of value))).
  { apply zero_pad_length. pose proof (length_nonneg (Arduino.String_of value)). lia. }
  assert (H5 : 1 <= Arduino.length (Arduino.String_of value) <= 5).
  { pose proof (utoa_length 5 value EmptyString 5) as H.
    change (10 ^ 5) with 100000 in H. cbn [Nat.eqb] in H.
    change (Arduino.length "") with 0 in H. unfold Arduino.String_of. lia. }
  assert (Hfit : value < 10 ^ pad ->
                 Arduino.length (zero_pad (Z.to_nat pad) pad (Arduino.String_of value)) = pad).
  { intros Hlt. rewrite Hlen.
    pose proof (utoa_length 5 value EmptyString pad ltac:(lia) Hp) as H.
    change (Arduino.length "") with 0 in H. unfold Arduino.String_of. lia. }
  split; [exact Hlen|]. split; [exact H5|]. split; [exact Hfit|].
  split; [|split].
  - intros ->. reflexivity.
  - intros Hs. destruct (Z.eqb_spec side LEFT); [contradiction | lia].
  - intros Hlt H4 Hs. destruct (Z.eqb_spec side LEFT); [contradiction|].
    rewrite (Hfit Hlt). lia.
Qed.

Lemma printModule_width_witness :
  exists text offset,
    printModule 4250 4 RIGHT startup = call (setDisplayToString text 0 offset) startup /\
    Arduino.length text = 4 /\ offset = 4.
Proof.
  destruct (printModule_width 4250 4 RIGHT startup)
    as (t & o & H1 & _ & _ & H2 & _ & H3 & _).
  - unfold in_uint. lia.
  - lia.
  - exists t, o. split; [exact H1|].
    assert (Ht : Arduino.length t = 4) by (apply H2; reflexivity).
    split; [exact Ht|].
    assert (Ho : o + Arduino.length t = 8) by (apply H3; discriminate).
    lia.
Defined.

(** ** What a command draws *)






(** ** The bar, level by level *)

(** X5.  For a level from 0 to 8 and 0 to 8 red LEDs the mask lights
    exactly the first [s] positions, each in one colour: position [i]
    is green (bit [i]) below [8 - redleds] and red (bit [i + 8]) from
    there on, never both. *)
Theorem led_mask_colours (r s : Z) :
  0 <= r <= 8 -> 0 <= s <= 8 ->
  exists mask, led_mask r s = Done mask /\
    mask = bar (Z.min s (8 - r)) s /\
    forall i, 0 <= i < 8 ->
      Z.testbit mask i = (i <? s) && (i <? 8 - r) /\
      Z.testbit mask (i + 8) = (i <? s) && (8 - r <=? i).
Proof.
  intros Hr Hs.
  assert (Er : r = 0 \/ r = 1 \/ r = 2 \/ r = 3 \/ r = 4 \/ r = 5 \/ r = 6 \/ r = 7 \/ r = 8)
    by lia.
  assert (Es : s = 0 \/ s = 1 \/ s = 2 \/ s = 3 \/ s = 4 \/ s = 5 \/ s = 6 \/ s = 7 \/ s = 8)
    by lia.
  clear Hr Hs.
  repeat match goal with H : _ \/ _ |- _ => destruct H as [H|H] end; subst r s;
    (eexists; split; [vm_compute; reflexivity|]; split; [reflexivity|];
     intros i Hi;
     assert (Ei : i = 0 \/ i = 1 \/ i = 2 \/ i = 3 \/ i = 4 \/ i = 5 \/ i = 6 \/ i = 7)
       by lia;
     clear Hi;
     repeat match goal with H : _ \/ _ |- _ => destruct H as [H|H] end; subst i;
     split; reflexivity).
Qed.

Lemma led_mask_colours_witness :
  exists mask, led_mask 3 7 = Done mask /\ mask = bar 5 7 /\
    Z.testbit mask 4 = true /\ Z.testbit mask (5 + 8) = true.
Proof.
  destruct (led_mask_colours 3 7) as (mask & H1 & H2 & H3); [lia | lia |].
  exists mask. split; [exact H1|]. split; [exact H2|].
  split; [apply (H3 4); lia | apply (H3 5); lia].
Defined.

Lemma times_1_1_gap (r : Z) : 10 <= r -> r + 1 <= Avr.times_1_1 r.
Proof.
  intros H. unfold Avr.times_1_1. apply Z.div_le_lower_bound; lia.
Qed.

(** X6.  The shift warning.  With the RPM within a ceiling of at least
    10, the level stays within 0..9 in style 0 (10 is never reached),
    and in style 1 it is at most 10 and is 10 exactly when the RPM
    equals the ceiling.  At 9 as at 10 all eight LEDs are red whatever
    the number of red LEDs set. *)
Theorem shift_warning_levels (m : machine) :
  in_uint (carrpm m) -> in_uint (rpmmax m) -> 10 <= rpmmax m ->
  carrpm m <= rpmmax m ->
  (rpmstyle m = 0 -> exists s, rpm_steps m = Done s /\ 0 <= s <= 9) /\
  (rpmstyle m = 1 ->
   exists s, rpm_steps m = Done s /\ s <= 10 /\ (s = 10 <-> carrpm m = rpmmax m)) /\
  led_mask (redleds m) 9 = Done 65280 /\ led_mask (redleds m) 10 = Done 65280.
Proof.
  intros Hr Hm H10 Hle. unfold in_uint in *. split; [|split; [|split]].
  - intros Hst.
    destruct (rpm_steps_linear m Hr Hm ltac:(lia) (or_introl Hst)) as [-> Hdom].
    unfold domain_floor, domain_ceiling in *. rewrite Hst in *. cbn [Z.eqb] in *.
    pose proof (times_1_1_gap (rpmmax m) H10) as Hgap.
    eexists; split; [reflexivity|].
    rewrite Z.sub_0_r, Z.sub_0_r. rewrite Z.quot_div_nonneg by lia. split.
    + apply Z.div_pos; lia.
    + assert (carrpm m * 10 / Avr.times_1_1 (rpmmax m) < 10); [|lia].
      apply Z.div_lt_upper_bound; nia.
  - intros Hst.
    destruct (rpm_steps_linear m Hr Hm ltac:(lia) (or_intror Hst)) as [-> Hdom].
    unfold domain_floor, domain_ceiling in *. rewrite Hst in *.
    change (1 =? 0) with false in *. cbn iota in *.
    set (lo := Avr.times_0_75 (rpmmax m)) in *.
    eexists; split; [reflexivity|].
    destruct (Z.le_gt_cases lo (carrpm m)) as [Hin|Hout].
    + pose proof (quot_inside (carrpm m - lo) (rpmmax m - lo) ltac:(lia) ltac:(lia)) as Hq.
      split; [lia|]. split.
      * intros E. rewrite Z.quot_div_nonneg in E by lia.
        destruct (Z.eq_dec (carrpm m) (rpmmax m)) as [|Hne]; [assumption|].
        assert ((carrpm m - lo) * 10 / (rpmmax m - lo) < 10); [|lia].
        apply Z.div_lt_upper_bound; lia.
      * intros ->. apply quot_full. lia.
    + pose proof (quot_below (carrpm m - lo) (rpmmax m - lo) ltac:(lia) ltac:(lia)) as Hq.
      split; [lia|]. split; [lia | intros E; lia].
  - unfold led_mask. rewrite led_loop_shift_warning by lia. vm_compute. reflexivity.
  - unfold led_mask. rewrite led_loop_shift_warning by lia. vm_compute. reflexivity.
Qed.

Lemma shift_warning_levels_witness :
  (exists s, rpm_steps (set_rpmstyle 0 (set_carrpm 1000 startup)) = Done s /\ 0 <= s <= 9) /\
  (exists s, rpm_steps (set_carrpm 1000 startup) = Done s /\ s <= 10 /\
             (s = 10 <-> 1000 = 1000)).
Proof.
  split.
  - destruct (shift_warning_levels (set_rpmstyle 0 (set_carrpm 1000 startup)))
      as (H & _); cbn; unfold in_uint; try lia.
    apply H. reflexivity.
  - destruct (shift_warning_levels (set_carrpm 1000 startup))
      as (_ & H & _); cbn; unfold in_uint; try lia.
    apply H. reflexivity.
Defined.

(** X7.  A pending Rpm command and the two places where the bar can
    go wrong.  Once the RPM is stored the ceiling is 0 exactly when it
    was 0 and the operand did not raise it, that is, the operand is 0
    or at least 50000; and the divisor of the division inside [map] is
    0 exactly when that ceiling is 0, in either style.  With a ceiling
    of at least 1 the outcome is decided by the level alone: the
    command returns exactly when the level is at most 65535, and the
    LED loop never ends exactly when the level exceeds 65535, which the
    16-bit counter of the loop cannot reach. *)
Theorem rpm_command_faults (m : machine) :
  state m = GOT_R -> in_uint (rpmmax m) -> rpmstyle m = 0 \/ rpmstyle m = 1 ->
  let v := Avr.uint (currentValue m) in
  let p := processRPM v m in
  let level := Z.quot ((carrpm p - domain_floor p) * 10)
                      (domain_ceiling p - domain_floor p) in
  (rpmmax p = 0 <-> rpmmax m = 0 /\ (v = 0 \/ 50000 <= v)) /\
  (domain_ceiling p - domain_floor p = 0 <-> rpmmax p = 0) /\
  (1 <= rpmmax p ->
   ((exists m', handlePreviousState m = Done m') <-> level <= 65535) /\
   (handlePreviousState m = Fault NoReturn <-> 65535 < level)).
Proof.
  intros Hs Hu Hst v p level.
  destruct (processRPM_fields v m) as (Hc & Hm & Hy & _).
  fold p in Hc, Hm, Hy.
  pose proof (uint_range (currentValue m)) as Hv. fold v in Hv.
  unfold in_uint in Hu, Hv.
  assert (Hup : in_uint (rpmmax p)).
  { rewrite Hm. unfold in_uint. destruct ((rpmmax m <? _) && _); lia. }
  assert (Hcp : in_uint (carrpm p)) by (rewrite Hc; exact Hv).
  split; [|split].
  - rewrite Hm.
    destruct (Z.ltb_spec (rpmmax m) v); destruct (Z.ltb_spec v 50000); cbn [andb]; lia.
  - unfold domain_ceiling, domain_floor, Avr.times_1_1, Avr.times_0_75. rewrite Hy.
    unfold in_uint in Hup.
    destruct Hst as [-> | ->]; cbn [Z.eqb].
    + rewrite Z.sub_0_r. split.
      * intros E. destruct (Z.eq_dec (rpmmax p) 0) as [|Hne]; [assumption|].
        assert (1 <= rpmmax p * 11 / 10); [|lia].
        apply Z.div_le_lower_bound; lia.
      * intros ->. reflexivity.
    + split.
      * intros E. destruct (Z.eq_dec (rpmmax p) 0) as [|Hne]; [assumption|].
        assert (rpmmax p * 3 / 4 < rpmmax p); [|lia].
        apply Z.div_lt_upper_bound; lia.
      * intros ->. reflexivity.
  - intros H1.
    assert (Hrun : handlePreviousState m =
                   (s <- rpm_steps p ;;
                    leds <- led_mask (redleds m) s ;;
                    Done (set_currentValue 0 (call (setLEDs leds)
                            (set_rpmleds s (show "R" (carrpm p) 4 p)))))).
    { unfold handlePreviousState. rewrite Hs. cbn [bind]. fold v. fold p.
      rewrite (rpm_steps_same _ _ (show_same "R" (carrpm p) 4 p)).
      destruct (rpm_steps p) as [s|]; cbn [bind]; [|reflexivity].
      cbn [rpmleds redleds set_rpmleds].
      destruct (show_same "R" (carrpm p) 4 p) as (_ & _ & _ & _ & _ & _ & _ & _ & _ & ->).
      replace (redleds p) with (redleds m)
        by (subst p; unfold processRPM; cbn zeta; split_ifs; reflexivity).
      destruct (led_mask (redleds m) s); reflexivity. }
    rewrite Hrun.
    destruct (rpm_steps_linear p Hcp Hup H1) as [Hlin _];
      [rewrite Hy; exact Hst|].
    rewrite Hlin. cbn [bind]. fold level.
    destruct (Z.le_gt_cases level 65535) as [Hle|Hgt].
    + destruct (led_mask_returns (redleds m) level Hle) as [leds ->]. cbn [bind].
      split; split.
      * intros _. exact Hle.
      * intros _. eexists; reflexivity.
      * discriminate.
      * lia.
    + rewrite (led_mask_never _ _ Hgt). cbn [bind].
      split; split.
      * intros (m' & Hx). discriminate.
      * lia.
      * intros _. exact Hgt.
      * intros _. reflexivity.
Qed.

(** An instance: a ceiling of 1 and the operand 60000, which does not
    raise it.  The level is 600000. *)
Lemma rpm_command_faults_witness :
  handlePreviousState (set_currentValue (-5536) (set_state GOT_R (set_rpmmax 1 startup)))
  = Fault NoReturn.
Proof.
  destruct (rpm_command_faults
              (set_currentValue (-5536) (set_state GOT_R (set_rpmmax 1 startup))))
    as (_ & _ & H); [reflexivity | cbn; unfold in_uint; lia | right; reflexivity |].
  destruct H as [_ H]; [vm_compute; discriminate|].
  apply H. vm_compute. reflexivity.
Defined.

(** ** Runs that cannot stop the sketch *)

Lemma calm_step (c : ascii) (m : machine) :
  calm m ->
  (ends_command c ->
   match state m with
   | GOT_R => Avr.uint (currentValue m) < 50000
   | GOT_MAXRPM => 1 <= Avr.uint (currentValue m)
   | _ => True
   end) ->
  exists m', processIncomingByte c m = Done m' /\ calm m'.
Proof.
  intros (Hu & H1 & Hst) Hop.
  destruct (Arduino.isdigit c) eqn:Hd.
  - rewrite (processIncomingByte_digit c m Hd). eexists. split; [reflexivity|].
    exact (conj Hu (conj H1 Hst)).
  - destruct (Ascii.eqb_spec c "-") as [->|Hm].
    + rewrite processIncomingByte_minus. eexists. split; [reflexivity|].
      exact (conj Hu (conj H1 Hst)).
    + assert (Hc : ends_command c) by (split; assumption).
      specialize (Hop Hc). rewrite (processIncomingByte_command c m Hc).
      pose proof (uint_range (currentValue m)) as Hv. unfold in_uint in *.
      assert (Hret : exists a, handlePreviousState m = Done a).
      { destruct (state m) eqn:Hs;
          try (apply handlePreviousState_returns; congruence).
        apply rpm_command_returns; try assumption.
        all: destruct (processRPM_fields (Avr.uint (currentValue m)) m) as (Hcp & Hmp & _);
          rewrite ?Hcp, Hmp; unfold in_uint;
          destruct (Z.ltb_spec (rpmmax m) (Avr.uint (currentValue m)));
          destruct (Z.ltb_spec (Avr.uint (currentValue m)) 50000);
          cbn [andb]; lia. }
      destruct Hret as [a Ha]. rewrite Ha. cbn [bind].
      eexists. split; [reflexivity|].
      apply handlePreviousState_spec in Ha.
      destruct Ha as (Hr & _ & _ & _ & _ & _ & _ & Hy & _).
      unfold calm, in_uint. cbn [rpmmax rpmstyle set_state]. rewrite Hy.
      assert (Hmax : 1 <= rpmmax a < 65536); [|repeat split; try lia; exact Hst].
      unfold registers in Hr. injection Hr as _ _ _ _ _ _ _ _ ->.
      destruct (state m); cbn [processor]; open_process; fields;
        try (split_ifs; fields; lia); try lia.
Qed.

(** X8.  A host that keeps every RPM it sends below 50000 and never
    sets the ceiling to 0 cannot stop the sketch: from a state with a
    ceiling of at least 1 and one of the two styles, every such byte
    sequence is read to its end, without a division by zero and
    without an endless LED loop, and leaves such a state again.  The
    buttons keep such a state as well. *)
Theorem harmless_bytes_are_read (cs : list ascii) :
  forall m, calm m -> harmless cs (view m) = true ->
  (exists m', processIncoming cs m = Done m' /\ calm m') /\
  (forall b, calm (handleButtons b m)).
Proof.
  induction cs as [|c r IH]; intros m Hm Hh; (split; [|
    intros b; destruct Hm as (Hu & H1 & Hst); unfold handleButtons, calm, in_uint in *;
    split_ifs; fields; repeat split; try lia; try assumption;
    pose proof (Z.mod_pos_bound (rpmstyle m + 1) 2 ltac:(lia)); lia ]).
  - eexists. split; [reflexivity | exact Hm].
  - cbn [harmless processIncoming] in *.
    apply andb_prop in Hh. destruct Hh as [Hc Hr].
    destruct (calm_step c m Hm) as (a & Ha & Hcalm).
    { intros [Hd Hne]. rewrite Hd in Hc.
      destruct (Ascii.eqb_spec c "-"); [contradiction|].
      cbn [orb view fst snd] in Hc.
      destruct (state m); try exact I.
      - apply Z.ltb_lt. exact Hc.
      - apply Z.leb_le. exact Hc. }
    rewrite Ha. cbn [bind].
    apply (IH a Hcalm). rewrite (view_step c m a Ha). exact Hr.
Qed.

Lemma harmless_bytes_witness :
  exists m', feed "Y5S95G2R4250T5000L3P12R" startup = Done m' /\ calm m'.
Proof.
  apply (harmless_bytes_are_read (list_ascii_of_string "Y5S95G2R4250T5000L3P12R") startup).
  - unfold calm, in_uint. cbn. repeat split; lia.
  - vm_compute. reflexivity.
Defined.

(** ** Noise and ignored operands *)

Lemma commands_of_app_quiet (a b : list ascii) :
  forall x y, commands_of a x = [] -> processIncoming a x = Done y ->
  commands_of (a ++ b) x = commands_of b y.
Proof.
  induction a as [|e a IHa]; intros x y Hx Hy.
  - injection Hy as <-. reflexivity.
  - cbn [app commands_of processIncoming] in *.
    destruct (processIncomingByte e x) as [z|]; cbn [bind] in Hy; [|discriminate].
    apply app_eq_nil in Hx. destruct Hx as [-> Hx]. cbn [app].
    apply IHa; assumption.
Qed.

(** X9.  A byte that is no digit, no minus and no command letter puts
    the decoder back to idle.  What becomes of the digits that follow
    it depends on the byte after them.  If that byte is a command byte,
    the digits go nowhere: the registers, the latch and the module are
    as the unknown byte left them, and no command is completed on the
    way.  If it is a minus, the digits are kept: they are the operand
    of the Gear command the minus leaves pending with the latch up, and
    the command byte that follows completes that Gear command with the
    digits read before and after the minus as one number. *)
Theorem digits_after_noise_dropped_unless_minus
    (m m0 : machine) (g c : ascii) (ds es : list ascii) :
  ends_command g -> next_state g = NONE -> all_digits ds -> all_digits es ->
  ends_command c ->
  processIncomingByte g m = Done m0 ->
  (exists m1, processIncoming (ds ++ [c]) m0 = Done m1 /\
     snapshot m1 = snapshot m0 /\ module1 m1 = module1 m0 /\
     view m1 = (next_state c, 0, reverse m0) /\
     commands_of (ds ++ [c]) m0 = []) /\
  (exists m2, processIncoming (ds ++ ["-"%char]) m0 = Done m2 /\
     registers m2 = registers m0 /\ module1 m2 = module1 m0 /\
     pending m2 = Some (GOT_G, Avr.uint (spelled ds), true)) /\
  commands_of (ds ++ "-"%char :: es ++ [c]) m0
  = [(GOT_G, Avr.uint (spelled (ds ++ es)), true)].
Proof.
  intros Hg Hn Hds Hes Hc H0.
  destruct (after_command_byte g m m0 Hg H0) as [Hv Hs]. rewrite Hn in Hs.
  set (m' := set_currentValue (fold_left digit_step ds (currentValue m0)) m0).
  assert (Hrun : processIncoming ds m0 = Done m') by (apply processIncoming_digits; exact Hds).
  assert (Hstep : processIncomingByte c m'
                  = Done (set_state (next_state c) (set_currentValue 0 m'))).
  { rewrite (processIncomingByte_command c m' Hc).
    unfold handlePreviousState. change (state m') with (state m0). rewrite Hs. reflexivity. }
  assert (Hop : forall xs, Avr.uint (fold_left digit_step xs (currentValue m0))
                           = Avr.uint (spelled xs)).
  { intros xs. rewrite accumulated_operand, Hv. reflexivity. }
  split; [|split].
  - eexists. split.
    { rewrite processIncoming_app, Hrun. cbn [bind processIncoming].
      rewrite Hstep. reflexivity. }
    split; [reflexivity|]. split; [reflexivity|]. split; [reflexivity|].
    rewrite (commands_of_app_quiet ds [c] m0 m' (commands_of_digits ds m0 Hds) Hrun).
    cbn [commands_of]. rewrite Hstep.
    destruct Hc as [Hcd Hcm]. unfold completes. rewrite Hcd.
    destruct (Ascii.eqb_spec c "-"); [contradiction|].
    unfold pending. change (state m') with (state m0). rewrite Hs. reflexivity.
  - exists (set_state GOT_G (set_reverse true m')). split.
    { rewrite processIncoming_app, Hrun. reflexivity. }
    split; [reflexivity|]. split; [reflexivity|].
    unfold pending. cbn [state set_state].
    change (currentValue (set_state GOT_G (set_reverse true m')))
      with (fold_left digit_step ds (currentValue m0)).
    rewrite Hop. reflexivity.
  - set (m2 := set_state GOT_G (set_reverse true m')).
    set (m3 := set_currentValue (fold_left digit_step es (currentValue m2)) m2).
    assert (Hrun3 : processIncoming es m2 = Done m3)
      by (apply processIncoming_digits; exact Hes).
    rewrite (commands_of_app_quiet ds _ m0 m' (commands_of_digits ds m0 Hds) Hrun).
    cbn [commands_of]. change (completes "-" m') with (@None command).
    rewrite processIncomingByte_minus. fold m2. cbn [app].
    rewrite (commands_of_app_quiet es [c] m2 m3 (commands_of_digits es m2 Hes) Hrun3).
    cbn [commands_of].
    destruct Hc as [Hcd Hcm]. unfold completes. rewrite Hcd.
    destruct (Ascii.eqb_spec c "-"); [contradiction|].
    unfold pending. change (state m3) with GOT_G. cbv iota.
    change (reverse m3) with true.
    change (currentValue m3)
      with (fold_left digit_step es (fold_left digit_step ds (currentValue m0))).
    rewrite <- fold_left_app, Hop.
    destruct (processIncomingByte c m3); reflexivity.
Qed.

Lemma digits_after_noise_witness :
  (exists m1, processIncoming (["1"; "2"] ++ ["S"])%char%list (set_state NONE startup)
              = Done m1 /\
              snapshot m1 = snapshot startup /\ view m1 = (GOT_S, 0, false)) /\
  commands_of (["1"; "2"] ++ "-" :: [] ++ ["G"])%char%list (set_state NONE startup)
  = [(GOT_G, 12, true)].
Proof.
  destruct (digits_after_noise_dropped_unless_minus startup (set_state NONE startup)
              "X" "S" ["1"; "2"]%char []) as ((m1 & H1 & H2 & _ & H3 & _) & _ & _).
  - split; [reflexivity | discriminate].
  - reflexivity.
  - repeat constructor.
  - constructor.
  - split; [reflexivity | discriminate].
  - reflexivity.
  - split; [exists m1; split; [exact H1|]; split; [exact H2 | exact H3]|].
    destruct (digits_after_noise_dropped_unless_minus startup (set_state NONE startup)
                "X" "G" ["1"; "2"]%char []) as (_ & _ & H).
    + split; [reflexivity | discriminate].
    + reflexivity.
    + repeat constructor.
    + constructor.
    + split; [reflexivity | discriminate].
    + reflexivity.
    + rewrite H. reflexivity.
Defined.

(** X10.  The operand of Stop is ignored: whatever digits follow the Z,
    the next command byte leaves the sketch exactly as it does with no
    digit at all: the same three calls on the module, every global the
    same. *)
Theorem stop_operand_is_ignored (m : machine) (ds : list ascii) (c : ascii) :
  all_digits ds -> ends_command c ->
  processIncoming ("Z"%char :: ds ++ [c]) m = processIncoming ["Z"; c]%char m /\
  forall m0, processIncomingByte "Z" m = Done m0 ->
    processIncoming (ds ++ [c]) m0
    = Done (set_state (next_state c) (processStop 0 m0)).
Proof.
  intros Hds Hc.
  assert (Hz : ends_command "Z") by (split; [reflexivity | discriminate]).
  assert (Hgo : forall m0, processIncomingByte "Z" m = Done m0 ->
            processIncoming (ds ++ [c]) m0
            = Done (set_state (next_state c) (processStop 0 m0))).
  { intros m0 H0.
    destruct (after_command_byte "Z" m m0 Hz H0) as [Hv Hs]. cbn [next_state] in Hs.
    rewrite processIncoming_app, (processIncoming_digits ds m0 Hds).
    cbn [bind processIncoming]. rewrite (processIncomingByte_command c _ Hc).
    unfold handlePreviousState. cbn [state set_currentValue]. rewrite Hs.
    cbn [bind]. f_equal. destruct m0. cbn [currentValue] in Hv. subst. reflexivity. }
  split; [|exact Hgo].
  cbn [processIncoming app].
  destruct (processIncomingByte "Z" m) as [m0|] eqn:H0; cbn [bind]; [|reflexivity].
  rewrite (Hgo m0 eq_refl).
  specialize (Hgo m0 eq_refl).
  destruct (after_command_byte "Z" m m0 Hz H0) as [Hv Hs]. cbn [next_state] in Hs.
  rewrite (processIncomingByte_command c _ Hc).
  unfold handlePreviousState. rewrite Hs. cbn [bind].
  f_equal. destruct m0. cbn [currentValue] in Hv. subst. reflexivity.
Qed.

Lemma stop_operand_witness :
  processIncoming ("Z" :: ["0"] ++ ["A"])%char startup = processIncoming ["Z"; "A"]%char startup.
Proof.
  destruct (stop_operand_is_ignored startup ["0"]%char "A") as [H _].
  - repeat constructor.
  - split; [reflexivity | discriminate].
  - exact H.
Defined.

(** ** The reverse latch *)

(** X11.  The reverse latch never outlives the command it was raised
    for.  From the start-up state on, the latch is up only while a Gear
    command is pending, and every command byte leaves it down: a minus
    marks the one Gear command completed next and no later one. *)
Theorem latch_is_consumed (cs : list ascii) :
  forall m m', latch_guarded m -> processIncoming cs m = Done m' ->
  latch_guarded m' /\
  forall c m'', ends_command c -> processIncomingByte c m' = Done m'' ->
    reverse m'' = false.
Proof.
  assert (Hstep : forall c m a, latch_guarded m -> processIncomingByte c m = Done a ->
            latch_guarded a /\ (ends_command c -> reverse a = false)).
  { intros c m a Hg Ha. apply view_step in Ha.
    unfold view, decode, latch_guarded in *.
    destruct (Arduino.isdigit c) eqn:Hd.
    - injection Ha as Hs _ Hr. rewrite Hs, Hr. split; [exact Hg|].
      intros [Hx _]. congruence.
    - destruct (Ascii.eqb_spec c "-") as [->|Hne].
      + injection Ha as Hs _ Hr. split; [intros _; exact Hs|].
        intros [_ Hx]. congruence.
      + injection Ha as _ _ Hr.
        assert (Hdown : reverse a = false).
        { rewrite Hr. destruct (reverse m); [|destruct (state m); reflexivity].
          rewrite (Hg eq_refl). reflexivity. }
        split; [intros Hup; congruence | intros _; exact Hdown]. }
  induction cs as [|c r IH]; intros m m' Hg H.
  - injection H as <-. split; [exact Hg|].
    intros c m'' Hc Hrun. apply (Hstep c m m'' Hg Hrun). exact Hc.
  - cbn [processIncoming] in H.
    destruct (processIncomingByte c m) as [a|] eqn:Ha; cbn [bind] in H; [|discriminate].
    apply (IH a m'); [apply (Hstep c m a Hg Ha) | exact H].
Qed.

Lemma latch_is_consumed_witness :
  exists m', processIncoming ["-"; "S"; "5"; "X"]%char startup = Done m' /\ latch_guarded m'.
Proof.
  assert (H : exists m', processIncoming ["-"; "S"; "5"; "X"]%char startup = Done m')
    by (eexists; vm_compute; reflexivity).
  destruct H as [m' H]. exists m'. split; [exact H|].
  destruct (latch_is_consumed ["-"; "S"; "5"; "X"]%char startup m') as [Hg _].
  - intros Hup. discriminate Hup.
  - exact H.
  - exact Hg.
Defined.

(** ** The settings *)

(** What each of the four buttons does to the four settings. *)
Lemma button_on_settings (b : Z) (m : machine) :
  b = btn1 \/ b = btn2 \/ b = btn4 \/ b = btn5 ->
  leftindicator (handleButtons b m)
    = (if b =? btn1
       then if leftindicator m + 1 <? 7 then leftindicator m + 1 else 0
       else leftindicator m) /\
  rightindicator (handleButtons b m)
    = (if b =? btn2
       then if rightindicator m + 1 <? 7 then rightindicator m + 1 else 0
       else rightindicator m) /\
  rpmstyle (handleButtons b m)
    = (if b =? btn4 then (rpmstyle m + 1) mod 2 else rpmstyle m) /\
  redleds (handleButtons b m)
    = (if b =? btn5 then (redleds m + 1) mod 9 else redleds m).
Proof.
  unfold handleButtons, sizeof_indicator.
  change (Z.of_nat (List.length indicator)) with 7.
  intros [-> | [-> | [-> | ->]]]; cbn [Z.eqb orb btn1 btn2 btn3 btn4 btn5 Pos.eqb];
    split_ifs; repeat split.
Qed.

(** X13.  Settings read from the EEPROM may lie outside what the sketch
    handles (a selector past the table, a style other than 0 and 1, more
    than eight red LEDs).  One press each of buttons 1, 2, 4 and 5 makes
    them valid whatever they were, and valid settings stay valid under
    every button and every byte. *)
Theorem settings_become_and_stay_valid (m : machine) :
  typed m ->
  settings_valid
    (handleButtons btn5 (handleButtons btn4 (handleButtons btn2 (handleButtons btn1 m)))) /\
  (settings_valid m ->
   (forall b, settings_valid (handleButtons b m)) /\
   (forall c m', processIncomingByte c m = Done m' -> settings_valid m')).
Proof.
  intros [_ _ Hli Hri Hy Hd _]. unfold in_byte in *.
  pose proof (Z.mod_pos_bound (rpmstyle m + 1) 2 ltac:(lia)) as H2.
  pose proof (Z.mod_pos_bound (redleds m + 1) 9 ltac:(lia)) as H9.
  split; [|intros Hv; split].
  - set (m1 := handleButtons btn1 m). set (m2 := handleButtons btn2 m1).
    set (m3 := handleButtons btn4 m2).
    destruct (button_on_settings btn1 m) as (L1 & R1 & Y1 & D1); [tauto|].
    destruct (button_on_settings btn2 m1) as (L2 & R2 & Y2 & D2); [tauto|].
    destruct (button_on_settings btn4 m2) as (L3 & R3 & Y3 & D3); [tauto|].
    destruct (button_on_settings btn5 m3) as (L4 & R4 & Y4 & D4); [tauto|].
    fold m1 in L1, R1, Y1, D1. fold m2 in L2, R2, Y2, D2. fold m3 in L3, R3, Y3, D3.
    cbn [Z.eqb btn1 btn2 btn4 btn5 Pos.eqb] in *.
    pose proof (Z.mod_pos_bound (rpmstyle m2 + 1) 2 ltac:(lia)).
    pose proof (Z.mod_pos_bound (redleds m3 + 1) 9 ltac:(lia)).
    unfold settings_valid, sizeof_indicator.
    change (Z.of_nat (List.length indicator)) with 7.
    rewrite L4, L3, L2, L1, R4, R3, R2, R1, Y4, Y3, D4.
    destruct (Z.ltb_spec (leftindicator m + 1) 7);
      destruct (Z.ltb_spec (rightindicator m + 1) 7); lia.
  - intros b. unfold settings_valid, handleButtons, sizeof_indicator in *.
    change (Z.of_nat (List.length indicator)) with 7 in *.
    repeat match goal with
           | |- context [?x <? ?y] => destruct (Z.ltb_spec x y)
           | |- context [if ?c then _ else _] => destruct c
           end; fields; lia.
  - intros c m' H. unfold settings_valid in *.
    unfold processIncomingByte in H.
    destruct (Arduino.isdigit c).
    + injection H as <-. exact Hv.
    + destruct (Ascii.eqb c "-"); cbn [negb bind] in H.
      * injection H as <-. exact Hv.
      * destruct (handlePreviousState m) as [a|] eqn:Ha; cbn [bind] in H; [|discriminate].
        injection H as <-. apply handlePreviousState_spec in Ha.
        destruct Ha as (_ & _ & _ & _ & _ & Hl' & Hr' & Hy' & Hd').
        fields. rewrite Hl', Hr', Hy', Hd'. exact Hv.
Qed.

Lemma settings_become_valid_witness :
  settings_valid
    (handleButtons btn5 (handleButtons btn4 (handleButtons btn2 (handleButtons btn1
       (set_redleds 255 (set_rpmstyle 255 (set_rightindicator 255
          (set_leftindicator 255 startup)))))))).
Proof.
  apply (settings_become_and_stay_valid
           (set_redleds 255 (set_rpmstyle 255 (set_rightindicator 255
              (set_leftindicator 255 startup))))).
  constructor; unfold in_byte, registers; cbn; try lia.
  repeat (apply Forall_cons; [unfold in_uint; lia|]). apply Forall_nil.
Defined.

(** ** The buttons in full, and the EEPROM *)

Lemma settings_text_same (beyond : Z -> ascii) (a b : machine) :
  same_globals a b -> settings_text beyond a = settings_text beyond b.
Proof.
  intros (_ & _ & _ & _ & _ & Hf & Hl & Hr & Hy & Hd).
  unfold settings_text. rewrite Hf, Hl, Hr, Hy, Hd. reflexivity.
Qed.

Lemma dispIndicators_same (beyond : Z -> ascii) (b : board) :
  same_globals (sketch (dispIndicators beyond b)) (sketch b) /\
  module1 (sketch (dispIndicators beyond b))
  = module1 (sketch b)
    ++ [clearDisplay; setDisplayToString (settings_text beyond (sketch b)) 0 0].
Proof.
  unfold dispIndicators. cbn [sketch]. split.
  - unfold same_globals. repeat split.
  - cbn [module1 call]. rewrite <- app_assoc. reflexivity.
Qed.

(** A case of the [switch] that shows the settings: the assignment [f]
    of the case, [dispIndicators], [clearDisplay]. *)
Lemma redraw_spec (beyond : Z -> ascii) (f : machine -> machine) (b : board) :
  module1 (f (sketch b)) = module1 (sketch b) ->
  let b' := on_sketch (call clearDisplay) (dispIndicators beyond (on_sketch f b)) in
  same_globals (sketch b') (f (sketch b)) /\
  text b' = settings_text beyond (f (sketch b)) /\
  module1 (sketch b')
  = module1 (sketch b)
    ++ [clearDisplay; setDisplayToString (settings_text beyond (f (sketch b))) 0 0;
        clearDisplay] /\
  buttons b' = buttons b /\ EEPROM b' = EEPROM b.
Proof.
  intros Hf b'.
  destruct (dispIndicators_same beyond (on_sketch f b)) as [Hs Hm].
  change (sketch (on_sketch f b)) with (f (sketch b)) in Hs, Hm.
  split; [|split; [|split; [|split]]]; try reflexivity.
  - eapply same_globals_trans; [apply call_same | exact Hs].
  - change (module1 (sketch b'))
      with (module1 (sketch (dispIndicators beyond (on_sketch f b))) ++ [clearDisplay]).
    rewrite Hm, Hf, <- app_assoc. reflexivity.
Qed.

(** The buttons the [switch] of [loop] has a case for. *)
Lemma handled_button (k : Z) :
  In k [btn1; btn2; btn3; btn4; btn5; btn6; btn8] <->
  k = 1 \/ k = 2 \/ k = 4 \/ k = 8 \/ k = 16 \/ k = 32 \/ k = 128.
Proof.
  unfold btn1, btn2, btn3, btn4, btn5, btn6, btn8. cbn [In].
  split; intros H; repeat (destruct H as [H|H]; [lia|]); try lia; try contradiction.
Qed.

(** X14.  What the [switch] of [loop] does besides the assignment of
    the button, for every byte [getButtons] may return and whatever the
    settings are.  The globals of the decoder and the settings are those
    of the bare assignment.  For each of the seven buttons with a case,
    the settings shown are the settings after the assignment: that text
    is left in [text] and the module receives exactly clear, the text
    from column 0, clear.  For any other byte, neither [text] nor the
    module is touched.  The EEPROM is written by button 8 only, which
    stores the two selectors, the multiplier flag as 0 or 1, the style
    and the number of red LEDs at the addresses 5, 7, 9, 11 and 13 and
    writes nowhere else. *)
Theorem buttons_draw_and_save (beyond : Z -> ascii) (k : Z) (b : board) :
  let b' := loop_buttons beyond k b in
  let shown := settings_text beyond (handleButtons k (sketch b)) in
  same_globals (sketch b') (handleButtons k (sketch b)) /\
  buttons b' = k /\
  (In k [btn1; btn2; btn3; btn4; btn5; btn6; btn8] ->
   text b' = shown /\
   module1 (sketch b')
   = module1 (sketch b) ++ [clearDisplay; setDisplayToString shown 0 0; clearDisplay]) /\
  (~ In k [btn1; btn2; btn3; btn4; btn5; btn6; btn8] ->
   text b' = text b /\ module1 (sketch b') = module1 (sketch b)) /\
  (k <> btn8 -> forall a, EEPROM b' a = EEPROM b a) /\
  (k = btn8 ->
   EEPROM b' 5 = leftindicator (sketch b) mod 256 /\
   EEPROM b' 7 = rightindicator (sketch b) mod 256 /\
   EEPROM b' 9 = (if speedmultiplier (sketch b) then 1 else 0) /\
   EEPROM b' 11 = rpmstyle (sketch b) mod 256 /\
   EEPROM b' 13 = redleds (sketch b) mod 256 /\
   forall a, a <> 5 -> a <> 7 -> a <> 9 -> a <> 11 -> a <> 13 ->
             EEPROM b' a = EEPROM b a).
Proof.
  intros b' shown.
  set (b0 := Board (sketch b) (text b) k (EEPROM b)).
  assert (Hidle : loop_buttons beyond k b = b0 ->
                  handleButtons k (sketch b) = sketch b ->
                  ~ In k [btn1; btn2; btn3; btn4; btn5; btn6; btn8] ->
                  same_globals (sketch b') (handleButtons k (sketch b)) /\
                  buttons b' = k /\
                  (In k [btn1; btn2; btn3; btn4; btn5; btn6; btn8] ->
                   text b' = shown /\
                   module1 (sketch b')
                   = module1 (sketch b)
                     ++ [clearDisplay; setDisplayToString shown 0 0; clearDisplay]) /\
                  (~ In k [btn1; btn2; btn3; btn4; btn5; btn6; btn8] ->
                   text b' = text b /\ module1 (sketch b') = module1 (sketch b)) /\
                  (k <> btn8 -> forall a, EEPROM b' a = EEPROM b a)).
  { intros Hb Hh Hn. subst b'. rewrite Hb, Hh.
    split; [apply same_globals_refl|]. split; [reflexivity|].
    split; [intros H; contradiction|]. split; [split; reflexivity|]. reflexivity. }
  assert (Hshow : forall f,
            loop_buttons beyond k b
            = on_sketch (call clearDisplay) (dispIndicators beyond (on_sketch f b0)) ->
            handleButtons k (sketch b) = f (sketch b) ->
            module1 (f (sketch b)) = module1 (sketch b) ->
            same_globals (sketch b') (handleButtons k (sketch b)) /\
            buttons b' = k /\
            (text b' = shown /\
             module1 (sketch b')
             = module1 (sketch b)
               ++ [clearDisplay; setDisplayToString shown 0 0; clearDisplay]) /\
            (forall a, EEPROM b' a = EEPROM b a)).
  { intros f Hb Hh Hm. subst b' shown. rewrite Hb, Hh.
    destruct (redraw_spec beyond f b0 Hm) as (H1 & H2 & H3 & H4 & H5).
    cbv zeta in H1, H2, H3, H4, H5.
    split; [exact H1|]. split; [exact H4|]. split; [split; [exact H2 | exact H3]|].
    intros a. rewrite H5. reflexivity. }
  destruct (Z.eq_dec k btn8) as [->|Hne8].
  { (* button 8 *)
    subst b' shown.
    change (handleButtons btn8 (sketch b)) with (sketch b).
    set (b1 := dispIndicators beyond (Board (sketch b) (text b) btn8 (EEPROM b))).
    change (loop_buttons beyond btn8 b)
      with (on_sketch (call clearDisplay)
              (Board (sketch b1) (text b1) (buttons b1)
                 (updateByte 13 (redleds (sketch b))
                    (updateByte 11 (rpmstyle (sketch b))
                       (updateByte 9 (if speedmultiplier (sketch b) then 1 else 0)
                          (updateByte 7 (rightindicator (sketch b))
                             (updateByte 5 (leftindicator (sketch b)) (EEPROM b1)))))))).
    destruct (dispIndicators_same beyond (Board (sketch b) (text b) btn8 (EEPROM b)))
      as [Hs Hm].
    fold b1 in Hs, Hm. cbn [sketch] in Hs, Hm.
    split; [eapply same_globals_trans; [apply call_same | exact Hs]|].
    split; [reflexivity|].
    split; [intros _; split; [reflexivity|]|].
    { change (module1 (sketch b) ++ [clearDisplay; setDisplayToString _ 0 0; clearDisplay])
        with (module1 (sketch b)
              ++ [clearDisplay;
                  setDisplayToString (settings_text beyond (sketch b)) 0 0]
              ++ [clearDisplay]).
      rewrite app_assoc, <- Hm. reflexivity. }
    split; [intros H; exfalso; apply H; rewrite handled_button; unfold btn8; lia|].
    split; [intros H; contradiction|]. intros _.
    cbn [on_sketch EEPROM]. unfold updateByte. cbn [Z.eqb Pos.eqb].
    repeat split.
    - destruct (speedmultiplier (sketch b)); reflexivity.
    - intros a H5 H7 H9 H11 H13.
      destruct (Z.eqb_spec a 13); [contradiction|].
      destruct (Z.eqb_spec a 11); [contradiction|].
      destruct (Z.eqb_spec a 9); [contradiction|].
      destruct (Z.eqb_spec a 7); [contradiction|].
      destruct (Z.eqb_spec a 5); [contradiction|]. reflexivity. }
  assert (Hwrap : forall X : Prop,
            (same_globals (sketch b') (handleButtons k (sketch b)) /\
             buttons b' = k /\
             (In k [btn1; btn2; btn3; btn4; btn5; btn6; btn8] ->
              text b' = shown /\
              module1 (sketch b')
              = module1 (sketch b)
                ++ [clearDisplay; setDisplayToString shown 0 0; clearDisplay]) /\
             (~ In k [btn1; btn2; btn3; btn4; btn5; btn6; btn8] ->
              text b' = text b /\ module1 (sketch b') = module1 (sketch b)) /\
             (k <> btn8 -> forall a, EEPROM b' a = EEPROM b a)) ->
            same_globals (sketch b') (handleButtons k (sketch b)) /\
            buttons b' = k /\
            (In k [btn1; btn2; btn3; btn4; btn5; btn6; btn8] ->
             text b' = shown /\
             module1 (sketch b')
             = module1 (sketch b)
               ++ [clearDisplay; setDisplayToString shown 0 0; clearDisplay]) /\
            (~ In k [btn1; btn2; btn3; btn4; btn5; btn6; btn8] ->
             text b' = text b /\ module1 (sketch b') = module1 (sketch b)) /\
            (k <> btn8 -> forall a, EEPROM b' a = EEPROM b a) /\
            (k = btn8 -> X)).
  { intros X (H1 & H2 & H3 & H4 & H5).
    split; [exact H1|]. split; [exact H2|]. split; [exact H3|]. split; [exact H4|].
    split; [exact H5|]. intros E; contradiction. }
  apply Hwrap. clear Hwrap.
  assert (Hyes : forall f,
            In k [btn1; btn2; btn3; btn4; btn5; btn6; btn8] ->
            loop_buttons beyond k b
            = on_sketch (call clearDisplay) (dispIndicators beyond (on_sketch f b0)) ->
            handleButtons k (sketch b) = f (sketch b) ->
            module1 (f (sketch b)) = module1 (sketch b) ->
            same_globals (sketch b') (handleButtons k (sketch b)) /\
            buttons b' = k /\
            (In k [btn1; btn2; btn3; btn4; btn5; btn6; btn8] ->
             text b' = shown /\
             module1 (sketch b')
             = module1 (sketch b)
               ++ [clearDisplay; setDisplayToString shown 0 0; clearDisplay]) /\
            (~ In k [btn1; btn2; btn3; btn4; btn5; btn6; btn8] ->
             text b' = text b /\ module1 (sketch b') = module1 (sketch b)) /\
            (k <> btn8 -> forall a, EEPROM b' a = EEPROM b a)).
  { intros f Hin Hb Hh Hm. destruct (Hshow f Hb Hh Hm) as (H1 & H2 & H3 & H4).
    split; [exact H1|]. split; [exact H2|]. split; [intros _; exact H3|].
    split; [intros H; contradiction|]. intros _; exact H4. }
  clear Hshow.
  destruct ((k =? 0) || (k =? 255)) eqn:Hz.
  { apply Hidle.
    - unfold loop_buttons. cbv zeta. rewrite Hz. reflexivity.
    - unfold handleButtons. rewrite Hz. reflexivity.
    - rewrite handled_button. apply orb_true_iff in Hz. lia. }
  destruct (Z.eqb_spec k btn1) as [->|N1].
  { apply (Hyes (fun m => if leftindicator m + 1 <? sizeof_indicator
                          then set_leftindicator (leftindicator m + 1) m
                          else set_leftindicator 0 m)).
    - rewrite handled_button; unfold btn1; lia.
    - reflexivity.
    - reflexivity.
    - destruct (_ <? _); reflexivity. }
  destruct (Z.eqb_spec k btn2) as [->|N2].
  { apply (Hyes (fun m => if rightindicator m + 1 <? sizeof_indicator
                          then set_rightindicator (rightindicator m + 1) m
                          else set_rightindicator 0 m)).
    - rewrite handled_button; unfold btn2; lia.
    - reflexivity.
    - reflexivity.
    - destruct (_ <? _); reflexivity. }
  destruct (Z.eqb_spec k btn3) as [->|N3].
  { apply (Hyes (fun m => set_speedmultiplier (negb (speedmultiplier m)) m));
      try reflexivity. rewrite handled_button; unfold btn3; lia. }
  destruct (Z.eqb_spec k btn4) as [->|N4].
  { apply (Hyes (fun m => set_rpmstyle ((rpmstyle m + 1) mod 2) m));
      try reflexivity. rewrite handled_button; unfold btn4; lia. }
  destruct (Z.eqb_spec k btn5) as [->|N5].
  { apply (Hyes (fun m => set_redleds ((redleds m + 1) mod 9) m));
      try reflexivity. rewrite handled_button; unfold btn5; lia. }
  destruct (Z.eqb_spec k btn6) as [->|N6].
  { apply (Hyes (set_rpmmax 1000)); try reflexivity.
    rewrite handled_button; unfold btn6; lia. }
  apply Hidle.
  - unfold loop_buttons. cbv zeta. rewrite Hz.
    destruct (Z.eqb_spec k btn1); [contradiction|].
    destruct (Z.eqb_spec k btn2); [contradiction|].
    destruct (Z.eqb_spec k btn3); [contradiction|].
    destruct (Z.eqb_spec k btn4); [contradiction|].
    destruct (Z.eqb_spec k btn5); [contradiction|].
    destruct (Z.eqb_spec k btn6); [contradiction|].
    destruct (Z.eqb_spec k btn8); [contradiction|]. reflexivity.
  - unfold handleButtons. rewrite Hz.
    destruct (Z.eqb_spec k btn1); [contradiction|].
    destruct (Z.eqb_spec k btn2); [contradiction|].
    destruct (Z.eqb_spec k btn3); [contradiction|].
    destruct (Z.eqb_spec k btn4); [contradiction|].
    destruct (Z.eqb_spec k btn5); [contradiction|].
    destruct (Z.eqb_spec k btn6); [contradiction|]. reflexivity.
  - rewrite handled_button. unfold btn1, btn2, btn3, btn4, btn5, btn6, btn8 in *. lia.
Qed.

Lemma buttons_draw_and_save_witness :
  text (loop_buttons (fun _ => "?"%char) btn5
          (Board (set_leftindicator 255 startup) "" 0 (fun _ => 255)))
  = "? 0 14 G"%string /\
  EEPROM (loop_buttons (fun _ => "?"%char) btn5
            (Board (set_leftindicator 255 startup) "" 0 (fun _ => 255))) 13 = 255.
Proof.
  destruct (buttons_draw_and_save (fun _ => "?"%char) btn5
              (Board (set_leftindicator 255 startup) "" 0 (fun _ => 255)))
    as (_ & _ & Hshow & _ & He & _).
  split.
  - destruct Hshow as [Ht _]; [rewrite handled_button; unfold btn5; lia|].
    rewrite Ht. reflexivity.
  - apply He. discriminate.
Defined.

(** X15.  Settings saved with button 8 come back at the next [setup],
    whatever they are: with byte-sized settings in the sketch when the
    button is pressed, and whatever the sketch holds when it starts
    again, [setup] leaves the two selectors, the multiplier flag, the
    style and the number of red LEDs that were saved, shows them, and
    leaves the decoder idle with the latch down and the registers as
    they were. *)
Theorem saved_settings_come_back (beyond beyond' : Z -> ascii) (b b0 : board) :
  typed (sketch b) ->
  EEPROM b0 = EEPROM (loop_buttons beyond btn8 b) ->
  settings (sketch (setup beyond' b0)) = settings (sketch b) /\
  text (setup beyond' b0) = settings_text beyond' (sketch b) /\
  state (sketch (setup beyond' b0)) = NONE /\
  reverse (sketch (setup beyond' b0)) = false /\
  registers (sketch (setup beyond' b0)) = registers (sketch b0).
Proof.
  intros [_ _ Hli Hri Hy Hd _] He. unfold in_byte in *.
  assert (H5 : EEPROM b0 5 = leftindicator (sketch b)).
  { rewrite He. change (EEPROM (loop_buttons beyond btn8 b) 5)
      with (leftindicator (sketch b) mod 256). apply Z.mod_small; lia. }
  assert (H7 : EEPROM b0 7 = rightindicator (sketch b)).
  { rewrite He. change (EEPROM (loop_buttons beyond btn8 b) 7)
      with (rightindicator (sketch b) mod 256). apply Z.mod_small; lia. }
  assert (H9 : negb (EEPROM b0 9 =? 0) = speedmultiplier (sketch b)).
  { rewrite He. change (EEPROM (loop_buttons beyond btn8 b) 9)
      with ((if speedmultiplier (sketch b) then 1 else 0) mod 256).
    destruct (speedmultiplier (sketch b)); reflexivity. }
  assert (H11 : EEPROM b0 11 = rpmstyle (sketch b)).
  { rewrite He. change (EEPROM (loop_buttons beyond btn8 b) 11)
      with (rpmstyle (sketch b) mod 256). apply Z.mod_small; lia. }
  assert (H13 : EEPROM b0 13 = redleds (sketch b)).
  { rewrite He. change (EEPROM (loop_buttons beyond btn8 b) 13)
      with (redleds (sketch b) mod 256). apply Z.mod_small; lia. }
  assert (Hs : settings (sketch (setup beyond' b0)) = settings (sketch b)).
  { unfold settings, setup. cbv zeta. cbn [sketch on_sketch dispIndicators]. fields.
    rewrite H5, H7, H9, H11, H13. reflexivity. }
  split; [exact Hs|].
  split; [|split; [reflexivity|split; reflexivity]].
  unfold setup. cbv zeta. cbn [text sketch on_sketch dispIndicators].
  unfold settings_text. fields. rewrite H5, H7, H9, H11, H13. reflexivity.
Qed.

Lemma saved_settings_witness :
  settings (sketch (setup (fun _ => "?"%char)
     (Board startup "" 0
        (EEPROM (loop_buttons (fun _ => "!"%char) btn8
                   (Board (set_leftindicator 255 (set_redleds 5 startup)) "" 0
                      (fun _ => 255)))))))
  = (255, 1, false, 1, 5).
Proof.
  destruct (saved_settings_come_back (fun _ => "!"%char) (fun _ => "?"%char)
              (Board (set_leftindicator 255 (set_redleds 5 startup)) "" 0 (fun _ => 255))
              (Board startup "" 0
                 (EEPROM (loop_buttons (fun _ => "!"%char) btn8
                            (Board (set_leftindicator 255 (set_redleds 5 startup)) "" 0
                               (fun _ => 255))))))
    as (Hs & _).
  - constructor; unfold in_byte, registers; cbn; try lia.
    repeat (apply Forall_cons; [unfold in_uint; lia|]). apply Forall_nil.
  - reflexivity.
  - rewrite Hs. reflexivity.
Defined.

(** ** Two bytes as one number *)

Lemma lor_low_byte (k lo : Z) : in_byte lo -> Z.lor (k * 256) lo = k * 256 + lo.
Proof.
  intros Hlo. unfold in_byte in Hlo.
  rewrite <- Z.lxor_lor, <- Z.add_nocarry_lxor; try reflexivity.
  all: apply Z.bits_inj'; intros n Hn; rewrite Z.land_spec, Z.bits_0;
    destruct (Z.lt_ge_cases n 8) as [Hlt|Hge].
  all: try (change 256 with (2 ^ 8); rewrite Z.mul_pow2_bits_low by lia; reflexivity).
  all: replace lo with (lo mod 2 ^ 8) by (apply Z.mod_small; change (2 ^ 8) with 256; lia);
    rewrite Z.mod_pow2_bits_high by lia; apply andb_false_r.
Qed.

(** X16.  [byte2uint] and [byte2int] read the same two bytes, low byte
    first: the unsigned reading is [lo + 256 * hi], the signed one is
    its 16-bit two's complement value.  They agree when the high byte is
    below 128 and differ by 65536 otherwise; both determine the two
    bytes. *)
Theorem two_bytes_as_number (lo hi : Z) :
  in_byte lo -> in_byte hi ->
  byte2uint [lo; hi] = lo + 256 * hi /\
  byte2int [lo; hi] = Avr.sint (byte2uint [lo; hi]) /\
  Avr.uint (byte2int [lo; hi]) = byte2uint [lo; hi] /\
  (hi < 128 -> byte2int [lo; hi] = byte2uint [lo; hi]) /\
  (128 <= hi -> byte2int [lo; hi] = byte2uint [lo; hi] - 65536) /\
  byte2uint [lo; hi] mod 256 = lo /\ byte2uint [lo; hi] / 256 = hi.
Proof.
  intros Hlo Hhi. unfold in_byte in *.
  assert (Hor : Z.lor (Avr.shl hi 8) lo = Avr.sint (hi * 256) + lo).
  { unfold Avr.shl. rewrite Z.shiftl_mul_pow2 by lia. change (2 ^ 8) with 256.
    destruct (sint_wraps (hi * 256)) as [k Hk]. rewrite Hk.
    replace (hi * 256 + k * 65536) with ((hi + k * 256) * 256) by ring.
    apply lor_low_byte. exact Hlo. }
  assert (Hu : byte2uint [lo; hi] = lo + 256 * hi).
  { unfold byte2uint, word. cbn [nth]. rewrite Hor.
    destruct (sint_wraps (hi * 256)) as [k ->]. unfold Avr.uint.
    replace (hi * 256 + k * 65536 + lo) with (lo + 256 * hi + k * 65536) by ring.
    rewrite Z_mod_plus_full. apply Z.mod_small. lia. }
  assert (Hi : byte2int [lo; hi] = Avr.sint (lo + 256 * hi)).
  { unfold byte2int. cbn [nth]. rewrite Hor.
    destruct (sint_wraps (hi * 256)) as [k ->].
    unfold Avr.sint.
    replace (hi * 256 + k * 65536 + lo + 32768) with (lo + 256 * hi + 32768 + k * 65536) by ring.
    rewrite Z_mod_plus_full. reflexivity. }
  rewrite Hu, Hi. split; [reflexivity|]. split; [reflexivity|].
  split; [rewrite uint_sint; apply uint_small; unfold in_uint; lia|].
  split; [|split; [|split]].
  - intros H. apply sint_small. lia.
  - intros H. unfold Avr.sint.
    replace (lo + 256 * hi + 32768) with (lo + 256 * hi - 32768 + 1 * 65536) by ring.
    rewrite Z_mod_plus_full, Z.mod_small by lia. lia.
  - replace (lo + 256 * hi) with (lo + hi * 256) by ring.
    rewrite Z_mod_plus_full. apply Z.mod_small. lia.
  - replace (lo + 256 * hi) with (lo + hi * 256) by ring.
    rewrite Z.div_add by lia. rewrite Z.div_small by lia. lia.
Qed.

Lemma two_bytes_witness :
  byte2uint [254; 255] = 65534 /\ byte2int [254; 255] = -2.
Proof.
  destruct (two_bytes_as_number 254 255) as (Hu & _ & _ & _ & Hi & _);
    [unfold in_byte; lia | unfold in_byte; lia |].
  split; [rewrite Hu; reflexivity|].
  rewrite Hi by lia. rewrite Hu. reflexivity.
Defined.

(** ** The settings on the module *)

Lemma one_digit_text (v : Z) :
  0 <= v < 10 -> Arduino.String_of v = String (ascii_of_nat (Z.to_nat (48 + v))) "".
Proof.
  intros Hv.
  assert (E : v = 0 \/ v = 1 \/ v = 2 \/ v = 3 \/ v = 4 \/ v = 5 \/ v = 6 \/ v = 7
              \/ v = 8 \/ v = 9) by lia.
  repeat (destruct E as [->|E]; [reflexivity|]). subst v. reflexivity.
Qed.

Lemma indicator_inside (i : Z) :
  0 <= i < sizeof_indicator ->
  exists ch, indicator_at i = Some ch /\ In ch indicator /\
             forall beyond, String_of_char (indicator_read beyond i) = String ch "".
Proof.
  intros Hi. unfold sizeof_indicator in Hi.
  change (Z.of_nat (List.length indicator)) with 7 in Hi.
  assert (E : i = 0 \/ i = 1 \/ i = 2 \/ i = 3 \/ i = 4 \/ i = 5 \/ i = 6) by lia.
  repeat (destruct E as [->|E];
          [eexists; split; [reflexivity|]; split; [cbn; tauto | reflexivity]|]).
  subst i. eexists; split; [reflexivity|]; split; [cbn; tauto | reflexivity].
Qed.

(** X17.  With valid settings the text [dispIndicators] shows does not
    depend on what lies past the table of kinds, and fills the eight
    columns of the module exactly: the letter of the left selector, a
    blank, the multiplier flag as 0 or 1, a blank, the style digit, the
    red LEDs digit, a blank, the letter of the right selector.  The text
    is left in [text], and the module receives a clear and then the text
    from column 0.  The registers, the latch, the decoder, the settings,
    the button byte and the EEPROM are as before. *)
Theorem settings_text_fills_the_module (beyond : Z -> ascii) (b : board) :
  settings_valid (sketch b) ->
  exists l r,
    indicator_at (leftindicator (sketch b)) = Some l /\
    indicator_at (rightindicator (sketch b)) = Some r /\
    text (dispIndicators beyond b)
    = String l (String " "
        (String (if speedmultiplier (sketch b) then "1" else "0") (String " "
           (String (ascii_of_nat (Z.to_nat (48 + rpmstyle (sketch b))))
              (String (ascii_of_nat (Z.to_nat (48 + redleds (sketch b))))
                 (String " " (String r ""))))))) /\
    Arduino.length (text (dispIndicators beyond b)) = 8 /\
    module1 (sketch (dispIndicators beyond b))
    = module1 (sketch b)
      ++ [clearDisplay; setDisplayToString (text (dispIndicators beyond b)) 0 0] /\
    same_globals (sketch (dispIndicators beyond b)) (sketch b) /\
    buttons (dispIndicators beyond b) = buttons b /\
    EEPROM (dispIndicators beyond b) = EEPROM b.
Proof.
  intros (Hl & Hr & Hy & Hd).
  destruct (indicator_inside _ Hl) as (l & El & _ & Tl).
  destruct (indicator_inside _ Hr) as (r & Er & _ & Tr).
  destruct (dispIndicators_same beyond b) as [Hs Hm].
  assert (Ht : text (dispIndicators beyond b)
               = String l (String " "
                   (String (if speedmultiplier (sketch b) then "1" else "0") (String " "
                      (String (ascii_of_nat (Z.to_nat (48 + rpmstyle (sketch b))))
                         (String (ascii_of_nat (Z.to_nat (48 + redleds (sketch b))))
                            (String " " (String r "")))))))%char).
  { change (text (dispIndicators beyond b)) with (settings_text beyond (sketch b)).
    unfold settings_text. rewrite Tl, Tr.
    rewrite (one_digit_text (rpmstyle (sketch b))), (one_digit_text (redleds (sketch b)))
      by lia.
    rewrite one_digit_text by (destruct (speedmultiplier (sketch b)); lia).
    destruct (speedmultiplier (sketch b)); reflexivity. }
  exists l, r. split; [exact El|]. split; [exact Er|]. split; [exact Ht|].
  split; [rewrite Ht; reflexivity|].
  split; [exact Hm|]. split; [exact Hs|]. split; reflexivity.
Qed.

Lemma settings_text_witness :
  text (dispIndicators (fun _ => "?"%char) (Board startup "" 0 (fun _ => 255)))
  = "S 0 13 G"%string.
Proof.
  destruct (settings_text_fills_the_module (fun _ => "?"%char)
              (Board startup "" 0 (fun _ => 255))) as (l & r & El & Er & Ht & _).
  - unfold settings_valid, sizeof_indicator. cbn. lia.
  - rewrite Ht. injection El as <-. injection Er as <-. reflexivity.
Defined.
